(** * VSCode marketplace crawler and data processor: a shallow embedding

    The development follows the two Python modules of the repository:

    - [marketplace_crawler.py]: [MarketplaceCrawler._make_request],
      [_save_extensions] and [crawl];
    - [data_processor.py]: [ExtensionDataProcessor._extract_nested_value],
      [_extract_statistic_value], [_process_extension] and
      [export_to_sqlite].

    Python values that come out of [json.load] / [response.json()] are
    modelled by the inductive type [json]; Python's [None] is the JSON
    [null].  A Python call either returns or raises: [result]. *)

From Stdlib Require Import ZArith List String Ascii Bool Lia SpecFloat.
From stdpp Require Import base gmap strings list fin_maps.

Import ListNotations.
Local Set Warnings "-register-all".
Local Open Scope string_scope.
Local Open Scope Z_scope.

(** ** Python values and exceptions *)

(** A JSON document as Python sees it.  A dict keeps its insertion order,
    so it is an association list; [json.load] never produces two entries
    with the same key, and every operation below reads the first entry of
    a key and removes all of them.  A string is the sequence of its
    characters. *)
Inductive json : Type :=
| JNull
| JBool (b : bool)
| JInt (n : Z)
| JFloat (f : spec_float)
| JStr (s : string)
| JList (items : list json)
| JDict (entries : list (string * json)).

(** The exception classes the two modules can meet. *)
Inductive exn : Type :=
| AttributeError
| TypeError
| KeyError
| IndexError
| ValueError
| RequestException
| IOError
| FileNotFoundError
| ParserError.

Inductive result (A : Type) : Type :=
| Ok (a : A)
| Raise (e : exn).
Arguments Ok {A} a.
Arguments Raise {A} e.

(** [result] is a monad; the code below is written with stdpp's
    [x ← m; k]. *)
#[export] Instance result_ret : MRet result := fun A a => Ok a.
#[export] Instance result_bind : MBind result := fun A B k m =>
  match m with
  | Ok a => k a
  | Raise e => Raise e
  end.
#[export] Instance result_fmap : FMap result := fun A B f m =>
  match m with
  | Ok a => Ok (f a)
  | Raise e => Raise e
  end.

Definition is_ok {A : Type} (m : result A) : bool :=
  match m with Ok _ => true | Raise _ => false end.

Definition is_None (v : json) : bool :=
  match v with JNull => true | _ => false end.

Definition is_dict (v : json) : bool :=
  match v with JDict _ => true | _ => false end.

(** [bool(v)]: the truth value Python's [if v] and [not v] test. *)
Definition py_truthy (v : json) : bool :=
  match v with
  | JNull => false
  | JBool b => b
  | JInt n => negb (n =? 0)
  | JFloat (S754_zero _) => false
  | JFloat _ => true
  | JStr s => negb (String.eqb s "")
  | JList items => match items with [] => false | _ => true end
  | JDict entries => match entries with [] => false | _ => true end
  end.

(** First entry of key [k] in a dict. *)
Fixpoint lookup_key (k : string) (entries : list (string * json)) : option json :=
  match entries with
  | [] => None
  | (k', v) :: rest => if String.eqb k' k then Some v else lookup_key k rest
  end.

(** [v.get(k, default)]: only a dict has the method. *)
Definition py_get (v : json) (k : string) (default : json) : result json :=
  match v with
  | JDict entries =>
      match lookup_key k entries with
      | Some x => Ok x
      | None => Ok default
      end
  | _ => Raise AttributeError
  end.

(** The characters of a string, each as a one-character string. *)
Fixpoint chars (s : string) : list json :=
  match s with
  | EmptyString => []
  | String c rest => JStr (String c EmptyString) :: chars rest
  end.

(** [for x in v]: a list gives its items, a dict its keys, a string its
    characters; nothing else is iterable. *)
Definition py_iter (v : json) : result (list json) :=
  match v with
  | JList items => Ok items
  | JDict entries => Ok (map (fun kv => JStr (fst kv)) entries)
  | JStr s => Ok (chars s)
  | _ => Raise TypeError
  end.

(** [len(v)]. *)
Definition py_len (v : json) : result Z :=
  match v with
  | JList items => Ok (Z.of_nat (List.length items))
  | JDict entries => Ok (Z.of_nat (List.length entries))
  | JStr s => Ok (Z.of_nat (String.length s))
  | _ => Raise TypeError
  end.

(** [v == s] for a string literal [s]. *)
Definition py_eq_str (v : json) (s : string) : bool :=
  match v with
  | JStr t => String.eqb t s
  | _ => false
  end.

(** [l[i]] on a Python list, for an index that is not negative. *)
Definition list_index {A : Type} (l : list A) (i : nat) : result A :=
  match nth_error l i with
  | Some x => Ok x
  | None => Raise IndexError
  end.

(** [s.split(sep)] for a one-character separator: [split_go] carries the
    piece read so far. *)
Fixpoint split_go (sep : ascii) (cur : string) (s : string) : list string :=
  match s with
  | EmptyString => [cur]
  | String c rest =>
      if Ascii.eqb c sep
      then cur :: split_go sep EmptyString rest
      else split_go sep (cur ++ String c EmptyString) rest
  end.

Definition py_split (sep : ascii) (s : string) : list string :=
  split_go sep EmptyString s.

(** [v.split(sep)] on an arbitrary value: only [str] has the method. *)
Definition py_split_method (v : json) (sep : ascii) : result (list string) :=
  match v with
  | JStr s => Ok (py_split sep s)
  | _ => Raise AttributeError
  end.

(** [s.startswith(p)]. *)
Fixpoint startswith (s p : string) : bool :=
  match p, s with
  | EmptyString, _ => true
  | String a p', String b s' => Ascii.eqb a b && startswith s' p'
  | String _ _, EmptyString => false
  end.

(** [range(a, b)]. *)
Definition py_range (a b : Z) : list Z := seqZ a (b - a).

(** ** data_processor.py *)

(** [ExtensionFields.FIELD_MAPPING]: output column name, extraction path,
    in insertion order. *)
Definition FIELD_MAPPING : list (string * string) :=
  [ ("publisherId", "publisher_publisherId");
    ("publisherName", "publisher_publisherName");
    ("publisherDisplayName", "publisher_displayName");
    ("extensionId", "extensionId");
    ("extensionName", "extensionName");
    ("extensionDisplayName", "displayName");
    ("lastUpdated", "lastUpdated");
    ("publishedDate", "publishedDate");
    ("install", "statistics_install");
    ("averagerating", "statistics_averagerating");
    ("ratingcount", "statistics_ratingcount");
    ("trendingdaily", "statistics_trendingdaily");
    ("trendingmonthly", "statistics_trendingmonthly");
    ("downloadCount", "statistics_downloadCount");
    ("categories", "categories");
    ("tags", "tags");
    ("pricing", "pricing");
    ("hasIcon", "hasIcon") ].

(** [FIELD_MAPPING.keys()] and [FIELD_MAPPING.values()]. *)
Definition FIELD_MAPPING_keys : list string := map fst FIELD_MAPPING.
Definition FIELD_MAPPING_values : list string := map snd FIELD_MAPPING.

(** The loop of [_extract_nested_value]: [value = value.get(key)], and
    [return None] as soon as the value is [None]. *)
Fixpoint extract_keys (value : json) (keys : list string) : result json :=
  match keys with
  | [] => Ok value
  | key :: rest =>
      v ← py_get value key JNull;
      if is_None v then Ok JNull else extract_keys v rest
  end.

Definition _extract_nested_value (data : json) (path : string) : result json :=
  extract_keys data (py_split "_" path).

(** The loop of [_extract_statistic_value] over the iterated entries. *)
Fixpoint scan_statistics (stats : list json) (stat_name : string) : result json :=
  match stats with
  | [] => Ok JNull
  | stat :: rest =>
      name ← py_get stat "statisticName" JNull;
      if py_eq_str name stat_name
      then py_get stat "value" JNull
      else scan_statistics rest stat_name
  end.

Definition _extract_statistic_value (extension : json) (stat_name : string)
  : result json :=
  statistics ← py_get extension "statistics" (JList []);
  stats ← py_iter statistics;
  scan_statistics stats stat_name.

(** [field_path in ['lastUpdated', 'publishedDate']]. *)
Definition is_date_path (field_path : string) : bool :=
  String.eqb field_path "lastUpdated" || String.eqb field_path "publishedDate".

(** One turn of the loop of [_process_extension]: the value appended for
    [field_path]. *)
Definition process_field (extension : json) (field_path : string) : result json :=
  if startswith field_path "statistics_" then
    stat_name ← list_index (py_split "_" field_path) 1;
    _extract_statistic_value extension stat_name
  else
    value ← _extract_nested_value extension field_path;
    if is_date_path field_path && py_truthy value then
      parts ← py_split_method value "T";
      first ← list_index parts 0;
      Ok (JStr first)
    else Ok value.

(** The [for] loop with [values.append(value)]; an exception leaves the
    loop at once. *)
Fixpoint process_fields (extension : json) (paths : list string)
  : result (list json) :=
  match paths with
  | [] => Ok []
  | field_path :: rest =>
      value ← process_field extension field_path;
      values ← process_fields extension rest;
      Ok (value :: values)
  end.

Definition _process_extension (extension : json) : result (list json) :=
  process_fields extension FIELD_MAPPING_values.

(** ** marketplace_crawler.py *)

(** The request payload of [_get_default_payload]. *)
Record criterion : Type := { filterType : Z; value : string }.

Record payload_t : Type := {
  criteria : list criterion;
  direction : Z;
  pageSize : Z;
  pageNumber : Z;
  sortBy : Z;
  sortOrder : Z;
  flags : Z
}.

Definition _get_default_payload : payload_t :=
  {| criteria :=
       [ {| filterType := 8; value := "Microsoft.VisualStudio.Code" |};
         {| filterType := 10;
            value := "target:" ++ String (ascii_of_nat 34)
                       ("Microsoft.VisualStudio.Code" ++ String (ascii_of_nat 34) " ") |} ];
     direction := 2;
     pageSize := 1000;
     pageNumber := 1;
     sortBy := 4;
     sortOrder := 0;
     flags := 870 |}.

(** [self.payload['filters'][0]['pageNumber'] = page]. *)
Definition set_pageNumber (page : Z) (p : payload_t) : payload_t :=
  {| criteria := criteria p;
     direction := direction p;
     pageSize := pageSize p;
     pageNumber := page;
     sortBy := sortBy p;
     sortOrder := sortOrder p;
     flags := flags p |}.

(** What [requests.post] meets: no connection, no answer within the
    timeout, or an answer with a status code and a body that parses as
    JSON. *)
Inductive response : Type :=
| ConnectionFailed
| TimedOut
| Answer (status_code : Z) (body : json).

(** What happens to [open(path, 'w')] followed by [json.dump]: both
    succeed, [open] raises [IOError], or the dump raises [IOError] after
    the file was created. *)
Inductive write_outcome : Type :=
| Written
| OpenFails
| DumpFails.

(** A file of the [extensions] directory: a whole JSON document, or what
    an interrupted dump left. *)
Inductive snapshot : Type :=
| Complete (doc : json)
| Partial.

(** The state the crawler works on: its payload object, the [extensions]
    directory (file [p.json] at key [p]) and the pages
    [_save_extensions] was called with, oldest first. *)
Record world : Type := {
  payload : payload_t;
  files : gmap Z snapshot;
  save_calls : list Z
}.

(** [requests.post(...)] with [timeout=30]. *)
Definition requests_post (server : payload_t -> response) (p : payload_t)
  : result response :=
  match server p with
  | ConnectionFailed => Raise RequestException
  | TimedOut => Raise RequestException
  | Answer code body => Ok (Answer code body)
  end.

(** [response.raise_for_status()]: [HTTPError] for a 4xx or 5xx status. *)
Definition raise_for_status (r : response) : result unit :=
  match r with
  | Answer code _ =>
      if (400 <=? code) && (code <? 600) then Raise RequestException else Ok tt
  | _ => Ok tt
  end.

Definition response_json (r : response) : result json :=
  match r with
  | Answer _ body => Ok body
  | _ => Raise RequestException
  end.

(** [v[0]]: a list or a string is indexed, a dict is looked up at the
    key [0], which no JSON object has; nothing else is subscriptable. *)
Definition py_index0 (v : json) : result json :=
  match v with
  | JList items => list_index items 0
  | JStr s => list_index (chars s) 0
  | JDict _ => Raise KeyError
  | _ => Raise TypeError
  end.

(** The body of the [try] of [_make_request]. *)
Definition request_page (server : payload_t -> response) (p : payload_t)
  : result json :=
  r ← requests_post server p;
  _ ← raise_for_status r;
  body ← response_json r;
  results ← py_get body "results" (JList [JDict []]);
  first ← py_index0 results;
  py_get first "extensions" (JList []).

(** [_make_request]: the payload is updated in place, then the two
    [except] clauses. *)
Definition _make_request (server : payload_t -> response) (page : Z) (w : world)
  : result (json * world) :=
  let w1 := {| payload := set_pageNumber page (payload w);
               files := files w;
               save_calls := save_calls w |} in
  match request_page server (payload w1) with
  | Ok extensions => Ok (extensions, w1)
  | Raise RequestException => Ok (JNull, w1)
  | Raise KeyError => Ok (JNull, w1)
  | Raise IndexError => Ok (JNull, w1)
  | Raise e => Raise e
  end.

(** The entries of a dict once key [k] is removed. *)
Definition dict_pop (k : string) (entries : list (string * json))
  : list (string * json) :=
  List.filter (fun kv => negb (String.eqb (fst kv) k)) entries.

(** [v.pop(k, None)], as the object [v] is afterwards: a dict loses the
    key, [list.pop] takes one argument at most, nothing else has the
    method. *)
Definition py_pop (v : json) (k : string) : result json :=
  match v with
  | JDict entries => Ok (JDict (dict_pop k entries))
  | JList _ => Raise TypeError
  | _ => Raise AttributeError
  end.

(** [for extension in extensions: extension.pop('versions', None)]. *)
Fixpoint pop_versions (items : list json) : result (list json) :=
  match items with
  | [] => Ok []
  | extension :: rest =>
      extension' ← py_pop extension "versions";
      rest' ← pop_versions rest;
      Ok (extension' :: rest')
  end.

(** The object [extensions] after its items were updated in place: the
    items of a list are the objects the loop changed; the keys of a dict
    and the characters of a string are not. *)
Definition with_items (extensions : json) (items : list json) : json :=
  match extensions with
  | JList _ => JList items
  | _ => extensions
  end.

(** [open] and [json.dump] on [extensions/<page>.json]: what the call
    does, and the directory afterwards. *)
Definition write_snapshot (outcome : write_outcome) (page : Z) (doc : json)
    (fs : gmap Z snapshot) : result unit * gmap Z snapshot :=
  match outcome with
  | Written => (Ok tt, <[page := Complete doc]> fs)
  | OpenFails => (Raise IOError, fs)
  | DumpFails => (Raise IOError, <[page := Partial]> fs)
  end.

(** [_save_extensions]: returns the list object as it is after the call
    and the new state; [IOError] is caught and logged. *)
Definition _save_extensions (disk : Z -> write_outcome) (extensions : json)
    (page : Z) (w : world) : result (json * world) :=
  items ← py_iter extensions;
  items' ← pop_versions items;
  let extensions' := with_items extensions items' in
  let '(written, fs') := write_snapshot (disk page) page extensions' (files w) in
  let w' := {| payload := payload w;
               files := fs';
               save_calls := save_calls w ++ [page] |} in
  match written with
  | Ok _ => Ok (extensions', w')
  | Raise IOError => Ok (extensions', w')
  | Raise e => Raise e
  end.

(** The [for page in range(1, max_pages + 1)] loop of [crawl], with
    [total_extensions] as accumulator. *)
Fixpoint crawl_loop (server : payload_t -> response) (disk : Z -> write_outcome)
    (pages : list Z) (total_extensions : Z) (w : world) : result (Z * world) :=
  match pages with
  | [] => Ok (total_extensions, w)
  | page :: rest =>
      '(extensions, w1) ← _make_request server page w;
      if negb (py_truthy extensions) then Ok (total_extensions, w1)
      else
        n ← py_len extensions;
        '(_, w2) ← _save_extensions disk extensions page w1;
        crawl_loop server disk rest (total_extensions + n) w2
  end.

Definition crawl (server : payload_t -> response) (disk : Z -> write_outcome)
    (max_pages : Z) (w : world) : result (Z * world) :=
  crawl_loop server disk (py_range 1 (max_pages + 1)) 0 w.

(** ** data_processor.py: [export_to_sqlite]

    pandas and SQLite are not part of the repository.  [pd.read_csv] is a
    function of the text it reads; [DataFrame.to_sql] stores the table a
    frame is turned into, and what it does with a table that exists
    already is chosen by [if_exists]. *)

Inductive if_exists_mode : Type :=
| if_exists_fail
| if_exists_replace
| if_exists_append.

Section ExportToSqlite.

Variables frame table : Type.
(** [pd.read_csv] on the text of a file. *)
Variable read_csv : string -> result frame.
(** The table [to_sql] creates for a frame, [index=False]. *)
Variable create_table : frame -> table.
(** The table after the rows of a frame were inserted. *)
Variable insert_rows : table -> frame -> table.

(** The files the export works on: text files by path, and SQLite
    database files by path, each a map from table name to table. *)
Record store : Type := {
  text_files : gmap string string;
  databases : gmap string (gmap string table)
}.

Definition to_sql (df : frame) (name : string) (if_exists : if_exists_mode)
    (db : gmap string table) : result (gmap string table) :=
  match db !! name, if_exists with
  | Some _, if_exists_fail => Raise ValueError
  | Some t, if_exists_append => Ok (<[name := insert_rows t df]> db)
  | Some _, if_exists_replace => Ok (<[name := create_table df]> db)
  | None, _ => Ok (<[name := create_table df]> db)
  end.

Definition open_text (path : string) (st : store) : result string :=
  match text_files st !! path with
  | Some text => Ok text
  | None => Raise FileNotFoundError
  end.

(** [sqlite3.connect(db_file)]: a database file that does not exist is
    created empty. *)
Definition sqlite3_connect (db_file : string) (st : store) : gmap string table :=
  match databases st !! db_file with
  | Some db => db
  | None => ∅
  end.

(** [export_to_sqlite]; the [except] clause logs and raises again. *)
Definition export_to_sqlite (csv_file db_file table_name : string) (st : store)
  : result store :=
  text ← open_text csv_file st;
  df ← read_csv text;
  let conn := sqlite3_connect db_file st in
  db ← to_sql df table_name if_exists_replace conn;
  Ok {| text_files := text_files st;
        databases := <[db_file := db]> (databases st) |}.

End ExportToSqlite.

Arguments text_files {table} _.
Arguments databases {table} _.

(** ** Notions the statements use *)

(** The characters of [s] before the first [sep], or all of [s] when it
    has none: the calendar-date prefix, for [sep = "T"]. *)
Fixpoint prefix_before (sep : ascii) (s : string) : string :=
  match s with
  | EmptyString => EmptyString
  | String c rest =>
      if Ascii.eqb c sep then EmptyString else String c (prefix_before sep rest)
  end.

(** [d.get(k)]. *)
Definition dict_get (k : string) (d : list (string * json)) : json :=
  match lookup_key k d with
  | Some v => v
  | None => JNull
  end.

(** [lookup_missing v keys]: following [keys] from [v] through mappings
    reaches a mapping that lacks the next key. *)
Fixpoint lookup_missing (v : json) (keys : list string) : bool :=
  match keys, v with
  | k :: rest, JDict d =>
      match lookup_key k d with
      | None => true
      | Some v' => lookup_missing v' rest
      end
  | _, _ => false
  end.

(** [mappings_along v keys]: every value the path indexes into is a
    mapping (the walk ends at a missing key or at [None]). *)
Fixpoint mappings_along (v : json) (keys : list string) : bool :=
  match keys with
  | [] => true
  | k :: rest =>
      match v with
      | JDict d =>
          match lookup_key k d with
          | None | Some JNull => true
          | Some v' => mappings_along v' rest
          end
      | _ => false
      end
  end.

(** A date value the flattener can handle: a string, or nothing. *)
Definition date_value_ok (v : json) : bool :=
  negb (py_truthy v) || match v with JStr _ => true | _ => false end.

(** The statistics sequence of a record, empty when the record has none. *)
Definition statistics_sequence (d : list (string * json)) : option (list json) :=
  match lookup_key "statistics" d with
  | None => Some []
  | Some (JList stats) => Some stats
  | Some _ => None
  end.

(** An ExtensionRecord: a mapping whose [publisher], when present, is a
    mapping, whose [statistics], when present, is a sequence of mappings,
    and whose two dates, when present, are strings.  Any field may be
    absent. *)
Definition extension_record (r : json) : bool :=
  match r with
  | JDict d =>
      match lookup_key "publisher" d with
      | None | Some JNull | Some (JDict _) => true
      | Some _ => false
      end
      && match statistics_sequence d with
         | Some stats => forallb is_dict stats
         | None => false
         end
      && date_value_ok (dict_get "lastUpdated" d)
      && date_value_ok (dict_get "publishedDate" d)
  | _ => false
  end.

(** The statistics lookup in the words of the specification: the value
    field of the first entry whose name field is [s], [None] when there
    is no such entry or it has no value field. *)
Definition statistic_named (s : string) (entry : json) : bool :=
  match entry with
  | JDict e => py_eq_str (dict_get "statisticName" e) s
  | _ => false
  end.

Definition first_statistic (stats : list json) (s : string) : json :=
  match List.find (statistic_named s) stats with
  | Some (JDict e) => dict_get "value" e
  | _ => JNull
  end.

(** What [_make_request] returns for [page] when the crawler's payload is
    [base]: the value alone, without the state. *)
Definition fetch (server : payload_t -> response) (base : payload_t) (page : Z)
  : result json :=
  '(extensions, _) ← _make_request server page
                       {| payload := base; files := ∅; save_calls := [] |};
  Ok extensions.

(** The state once the payload carries [page]. *)
Definition paged (page : Z) (w : world) : world :=
  {| payload := set_pageNumber page (payload w);
     files := files w;
     save_calls := save_calls w |}.

(** A record without its [versions] entry. *)
Definition strip_versions (r : json) : json :=
  match r with
  | JDict d => JDict (dict_pop "versions" d)
  | _ => r
  end.

(** [r'] is the mapping [r] less its [versions] key: no other key is
    touched, and the remaining entries keep their order. *)
Definition only_versions_removed (r r' : json) : Prop :=
  exists d d',
    r = JDict d /\ r' = JDict d'
    /\ lookup_key "versions" d' = None
    /\ (forall k, k <> "versions" -> lookup_key k d' = lookup_key k d)
    /\ d' = List.filter (fun kv => negb (String.eqb (fst kv) "versions")) d.

(** The state after [page] was fetched with records [recs page] and
    handed to [_save_extensions]. *)
Definition after_page (disk : Z -> write_outcome) (recs : Z -> list json)
    (page : Z) (w : world) : world :=
  {| payload := set_pageNumber page (payload w);
     files := snd (write_snapshot (disk page) page
                     (JList (map strip_versions (recs page))) (files w));
     save_calls := save_calls w ++ [page] |}.

(** The file of [page] after the page was saved. *)
Definition written_file (disk : Z -> write_outcome) (recs : Z -> list json)
    (page : Z) (before : option snapshot) : option snapshot :=
  match disk page with
  | Written => Some (Complete (JList (map strip_versions (recs page))))
  | OpenFails => before
  | DumpFails => Some Partial
  end.

Definition after_pages (disk : Z -> write_outcome) (recs : Z -> list json)
    (pages : list Z) (w : world) : world :=
  fold_left (fun w page => after_page disk recs page w) pages w.

(** The sum of the record counts of [pages]. *)
Definition page_counts (recs : Z -> list json) (pages : list Z) : Z :=
  fold_right (fun page acc => Z.of_nat (List.length (recs page)) + acc) 0 pages.

(** Page [p] is fetched as the non-empty list of records [recs p]. *)
Definition page_yields (server : payload_t -> response) (base : payload_t)
    (recs : Z -> list json) (p : Z) : Prop :=
  fetch server base p = Ok (JList (recs p))
  /\ recs p <> []
  /\ forallb is_dict (recs p) = true.

(** Page [p] is fetched as an empty list, or the fetch fails. *)
Definition page_ends (server : payload_t -> response) (base : payload_t) (p : Z)
  : Prop :=
  fetch server base p = Ok (JList []) \/ fetch server base p = Ok JNull.

(** The records a file of the directory holds, and those of [pages]
    together. *)
Definition snapshot_records (file : option snapshot) : Z :=
  match file with
  | Some (Complete (JList records)) => Z.of_nat (List.length records)
  | _ => 0
  end.

Definition records_on_disk (fs : gmap Z snapshot) (pages : list Z) : Z :=
  fold_right (fun page acc => snapshot_records (fs !! page) + acc) 0 pages.

(** ** Sample inputs *)

(** A record that has only a name, and one with every kind of field. *)
Definition record_bare : json := JDict [("extensionName", JStr "python")].

Definition record_full : json :=
  JDict [ ("publisher", JDict [("publisherId", JStr "abc")]);
          ("extensionId", JStr "e1");
          ("lastUpdated", JStr "2021-05-01T10:00:00Z");
          ("statistics",
           JList [JDict [("statisticName", JStr "install"); ("value", JInt 42)]]);
          ("tags", JList [JStr "a"; JStr "b"]) ].

(** The record of the specification's statistics example. *)
Definition record_install_42 : json :=
  JDict [("statistics",
          JList [JDict [("statisticName", JStr "install"); ("value", JInt 42)]])].

Definition sample_record (name : string) : json :=
  JDict [ ("extensionName", JStr name);
          ("versions", JList [JDict [("version", JStr "1.0.0")]]);
          ("flags", JStr "validated") ].

(** Two records on page 1, one on page 2, none afterwards. *)
Definition sample_recs (page : Z) : list json :=
  if page =? 1 then [sample_record "a"; sample_record "b"]
  else if page =? 2 then [sample_record "c"]
  else [].

Definition page_body (extensions : list json) : json :=
  JDict [("results", JList [JDict [("extensions", JList extensions)]])].

Definition sample_server (p : payload_t) : response :=
  Answer 200 (page_body (sample_recs (pageNumber p))).

(** A disk on which the file of page 1 cannot be opened. *)
Definition failing_disk (page : Z) : write_outcome :=
  if page =? 1 then OpenFails else Written.

Definition good_disk (page : Z) : write_outcome := Written.

Definition initial_world : world :=
  {| payload := _get_default_payload; files := ∅; save_calls := [] |}.

(** A reading of text tables by lines, for the examples of the export:
    the frame is the list of lines, the table the lines after the
    header. *)
Definition lines_read_csv (text : string) : result (list string) :=
  if String.eqb text "" then Raise ParserError
  else Ok (py_split (ascii_of_nat 10) text).

Definition lines_create_table (df : list string) : list string := tl df.

Definition lines_insert_rows (t : list string) (df : list string) : list string :=
  (t ++ tl df)%list.

Definition sample_store : store (list string) :=
  {| text_files := {[ "vscode_extensions.csv" :=
                        "extensionId,install" ++ String (ascii_of_nat 10) "e1,42" ]};
     databases := {[ "vscode_extensions.db" :=
                       {[ "vscode_extensions" := ["stale,1"; "stale,2"];
                          "other" := ["kept"] ]} ]} |}.

Definition sample_export : store (list string) -> result (store (list string)) :=
  export_to_sqlite (list string) (list string) lines_read_csv
    lines_create_table lines_insert_rows
    "vscode_extensions.csv" "vscode_extensions.db" "vscode_extensions".

(** ** Further notions the statements use *)

(** [sep.join(pieces)]. *)
Fixpoint py_join (sep : ascii) (pieces : list string) : string :=
  match pieces with
  | [] => EmptyString
  | [piece] => piece
  | piece :: rest => (piece ++ String sep (py_join sep rest))%string
  end.

(** [c in s]. *)
Fixpoint contains_char (c : ascii) (s : string) : bool :=
  match s with
  | EmptyString => false
  | String a rest => Ascii.eqb a c || contains_char c rest
  end.

(** The scan for [s] ends, by a match or at the end of the sequence,
    before it meets an entry that is not a mapping. *)
Fixpoint scannable (s : string) (stats : list json) : bool :=
  match stats with
  | [] => true
  | JDict e :: rest =>
      if py_eq_str (dict_get "statisticName" e) s then true else scannable s rest
  | _ :: _ => false
  end.

(** The statistic names the schema targets. *)
Definition statistic_names : list string :=
  ["install"; "averagerating"; "ratingcount"; "trendingdaily";
   "trendingmonthly"; "downloadCount"].

(** The statistics of the record can be scanned for [s]: they are absent,
    or iterable and scannable. *)
Definition statistics_ok (d : list (string * json)) (s : string) : bool :=
  match lookup_key "statistics" d with
  | None => true
  | Some v =>
      match py_iter v with
      | Ok stats => scannable s stats
      | Raise _ => false
      end
  end.

(** The records [_process_extension] returns a row for. *)
Definition flattens (r : json) : bool :=
  match r with
  | JDict d =>
      match lookup_key "publisher" d with
      | None | Some JNull | Some (JDict _) => true
      | Some _ => false
      end
      && forallb (statistics_ok d) statistic_names
      && date_value_ok (dict_get "lastUpdated" d)
      && date_value_ok (dict_get "publishedDate" d)
  | _ => false
  end.

(** The top-level keys of a record the schema reads. *)
Definition read_keys : list string :=
  ["publisher"; "extensionId"; "extensionName"; "displayName"; "lastUpdated";
   "publishedDate"; "statistics"; "categories"; "tags"; "pricing"; "hasIcon"].

(** [raise_for_status] raises for this status code. *)
Definition error_status (code : Z) : bool := (400 <=? code) && (code <? 600).

(** The bodies [_make_request] gets through without an exception that
    escapes: a mapping whose [results] (one empty mapping in a list when
    absent) is a mapping, an empty list, an empty string, or a list that
    starts with a mapping. *)
Definition body_handled (body : json) : bool :=
  match body with
  | JDict d =>
      match lookup_key "results" d with
      | None => true
      | Some (JDict _) => true
      | Some (JList []) => true
      | Some (JList (JDict _ :: _)) => true
      | Some (JStr EmptyString) => true
      | Some _ => false
      end
  | _ => false
  end.

(** The records page [p] is fetched with, when it is fetched as a list. *)
Definition recs_of (server : payload_t -> response) (base : payload_t) (p : Z)
  : list json :=
  match fetch server base p with
  | Ok (JList records) => records
  | _ => []
  end.

(** What a caller of [crawl] can see that does not depend on the disk:
    the total, the payload and the pages handed to [_save_extensions]. *)
Definition crawl_outcome (r : Z * world) : Z * payload_t * list Z :=
  (fst r, payload (snd r), save_calls (snd r)).

(** ** data_processor.py: [load_extensions], [convert_to_csv], [main] *)

(** [json.load(f)] on a file of the directory: what an interrupted dump
    left is no JSON document ([JSONDecodeError] is a [ValueError]). *)
Definition json_load (file : snapshot) : result json :=
  match file with
  | Complete doc => Ok doc
  | Partial => Raise ValueError
  end.

(** The loop of [load_extensions] over the files [glob('*.json')] yields,
    in the order it yields them: [extensions.extend(json.load(f))]. *)
Fixpoint load_files (listing : list snapshot) (extensions : list json)
  : result (list json) :=
  match listing with
  | [] => Ok extensions
  | file :: rest =>
      doc ← json_load file;
      items ← py_iter doc;
      load_files rest (extensions ++ items)
  end.

(** [load_extensions]; the [except] clause logs and raises again. *)
Definition load_extensions (listing : list snapshot) : result (list json) :=
  load_files listing [].

(** The files of the directory in the order [order] names them. *)
Definition directory_listing (fs : gmap Z snapshot) (order : list Z)
  : list snapshot :=
  omap (fun page => fs !! page) order.

(** [[self._process_extension(ext) for ext in extensions]]. *)
Fixpoint process_all (extensions : list json) : result (list (list json)) :=
  match extensions with
  | [] => Ok []
  | ext :: rest =>
      row ← _process_extension ext;
      rows ← process_all rest;
      Ok (row :: rows)
  end.

(** What happens to [open(output_file, 'w')] and the writes that follow:
    all succeed, [open] raises [IOError], or a write raises it after [n]
    characters went out. *)
Inductive text_write : Type :=
| TextWritten
| TextOpenFails
| TextCut (n : nat).

Section ConvertToCsv.

Variable table : Type.
(** The text [csv.writer] produces for a header row and data rows. *)
Variable csv_text : list string -> list (list json) -> string.

Definition with_text (path text : string) (st : store table) : store table :=
  {| text_files := <[path := text]> (text_files st);
     databases := databases st |}.

(** [convert_to_csv]: what the call does, and the files afterwards.  The
    output file is opened once loading and flattening are done. *)
Definition convert_to_csv (listing : list snapshot) (output_file : string)
    (outcome : text_write) (st : store table) : result unit * store table :=
  match (extensions ← load_extensions listing; process_all extensions) with
  | Raise e => (Raise e, st)
  | Ok processed_data =>
      let text := csv_text FIELD_MAPPING_keys processed_data in
      match outcome with
      | TextWritten => (Ok tt, with_text output_file text st)
      | TextOpenFails => (Raise IOError, st)
      | TextCut n =>
          (Raise IOError, with_text output_file (String.substring 0 n text) st)
      end
  end.

End ConvertToCsv.

Section ProcessorMain.

Variables frame table : Type.
Variable read_csv : string -> result frame.
Variable create_table : frame -> table.
Variable insert_rows : table -> frame -> table.
Variable csv_text : list string -> list (list json) -> string.

(** [main] of the data processor: [convert_to_csv()] then
    [export_to_sqlite()], both with their default arguments; the
    [except] clause logs and raises again. *)
Definition processor_main (listing : list snapshot) (outcome : text_write)
    (st : store table) : result unit * store table :=
  match convert_to_csv table csv_text listing "vscode_extensions.csv" outcome st with
  | (Raise e, st1) => (Raise e, st1)
  | (Ok _, st1) =>
      match export_to_sqlite frame table read_csv create_table insert_rows
              "vscode_extensions.csv" "vscode_extensions.db" "vscode_extensions"
              st1 with
      | Ok st2 => (Ok tt, st2)
      | Raise e => (Raise e, st1)
      end
  end.

End ProcessorMain.

(** [main] of the crawler: a fresh crawler on the directory as it is,
    and [crawl()] with its default of 100 pages. *)
Definition crawler_main (server : payload_t -> response) (disk : Z -> write_outcome)
    (fs : gmap Z snapshot) : result (Z * world) :=
  crawl server disk 100
    {| payload := _get_default_payload; files := fs; save_calls := [] |}.

(** The items [load_extensions] takes from a file, when it can read it. *)
Definition file_items (file : snapshot) : result (list json) :=
  doc ← json_load file; py_iter doc.

Definition items_of (file : snapshot) : list json :=
  match file_items file with
  | Ok items => items
  | Raise _ => []
  end.

(** * Properties *)

Example nested_publisher_id :
  _extract_nested_value (JDict [("publisher", JDict [("publisherId", JStr "abc")])])
    "publisher_publisherId" = Ok (JStr "abc").
Proof. reflexivity. Qed.

Example nested_publisher_missing :
  _extract_nested_value (JDict []) "publisher_publisherId" = Ok JNull.
Proof. reflexivity. Qed.


(** ** The [result] monad *)

Lemma bind_Ok {A B : Type} (a : A) (k : A -> result B) : (Ok a ≫= k) = k a.
Proof. reflexivity. Qed.

Lemma bind_Raise {A B : Type} (e : exn) (k : A -> result B) :
  (Raise e ≫= k) = Raise e.
Proof. reflexivity. Qed.

(** ** Strings *)

Lemma append_snoc (a : string) (c : ascii) (b : string) :
  ((a ++ String c EmptyString) ++ b = a ++ String c b)%string.
Proof.
  induction a as [|x a IH]; [reflexivity|].
  change (String x ((a ++ String c EmptyString) ++ b) = String x (a ++ String c b))%string.
  now rewrite IH.
Qed.

Lemma append_empty_r (a : string) : (a ++ EmptyString = a)%string.
Proof.
  induction a as [|x a IH]; [reflexivity|].
  change (String x (a ++ EmptyString) = String x a)%string.
  now rewrite IH.
Qed.

Lemma split_go_head (sep : ascii) (s cur : string) :
  exists tl, split_go sep cur s = (cur ++ prefix_before sep s)%string :: tl.
Proof.
  revert cur. induction s as [|c rest IH]; intros cur; simpl.
  - exists []. now rewrite append_empty_r.
  - destruct (Ascii.eqb c sep).
    + eexists. now rewrite append_empty_r.
    + destruct (IH (cur ++ String c EmptyString)%string) as [tl ->].
      exists tl. now rewrite append_snoc.
Qed.

Lemma py_split_head (sep : ascii) (s : string) :
  list_index (py_split sep s) 0 = Ok (prefix_before sep s).
Proof.
  unfold py_split. destruct (split_go_head sep s EmptyString) as [tl ->].
  reflexivity.
Qed.

(** ** The flattener *)

Lemma py_get_dict d k default :
  py_get (JDict d) k default
  = Ok (match lookup_key k d with Some v => v | None => default end).
Proof. unfold py_get. now destruct (lookup_key k d). Qed.

Lemma extract_keys_dict d k rest :
  extract_keys (JDict d) (k :: rest)
  = match lookup_key k d with
    | None | Some JNull => Ok JNull
    | Some v => extract_keys v rest
    end.
Proof.
  simpl. destruct (lookup_key k d) as [v|]; [|reflexivity].
  now destruct v.
Qed.

(** A path of one key reads the record once. *)
Lemma extract_one_key d k :
  extract_keys (JDict d) [k] = Ok (dict_get k d).
Proof.
  rewrite extract_keys_dict. unfold dict_get.
  destruct (lookup_key k d) as [v|]; [|reflexivity].
  now destruct v.
Qed.

Lemma extract_keys_missing keys : forall v,
  lookup_missing v keys = true -> extract_keys v keys = Ok JNull.
Proof.
  induction keys as [|k rest IH]; intros v H; [discriminate|].
  destruct v as [| | | | |?|d]; try discriminate.
  rewrite extract_keys_dict. simpl in H.
  destruct (lookup_key k d) as [v'|]; [|reflexivity].
  destruct v'; try reflexivity; now apply IH.
Qed.

Lemma extract_keys_ok keys : forall v,
  is_ok (extract_keys v keys) = mappings_along v keys.
Proof.
  induction keys as [|k rest IH]; intros v; [reflexivity|].
  destruct v as [| | | | |?|d]; try reflexivity.
  rewrite extract_keys_dict. simpl.
  destruct (lookup_key k d) as [v'|]; [|reflexivity].
  destruct v'; try apply IH. reflexivity.
Qed.

(** *** Statistics lookup *)

Lemma scan_statistics_first stats s :
  forallb is_dict stats = true ->
  scan_statistics stats s = Ok (first_statistic stats s).
Proof.
  unfold first_statistic.
  induction stats as [|stat rest IH]; intros H; [reflexivity|].
  simpl in H. apply andb_prop in H as [Hd Hrest].
  destruct stat as [| | | | | |e]; try discriminate.
  cbn [scan_statistics List.find statistic_named].
  rewrite !py_get_dict, bind_Ok. unfold dict_get.
  destruct (py_eq_str _ s); [reflexivity | now apply IH].
Qed.

Lemma extract_statistic_value_first d s stats :
  statistics_sequence d = Some stats ->
  forallb is_dict stats = true ->
  _extract_statistic_value (JDict d) s = Ok (first_statistic stats s).
Proof.
  unfold statistics_sequence, _extract_statistic_value. intros Hs Hd.
  rewrite py_get_dict.
  destruct (lookup_key "statistics" d) as [v|].
  - destruct v; try discriminate. injection Hs as ->.
    rewrite bind_Ok. cbn [py_iter]. rewrite bind_Ok.
    now apply scan_statistics_first.
  - injection Hs as <-. reflexivity.
Qed.

(** The statistic name a statistics path targets is what follows the
    marker. *)
Lemma statistics_path_target col path :
  In (col, path) FIELD_MAPPING ->
  startswith path "statistics_" = true ->
  exists s, path = ("statistics_" ++ s)%string
    /\ forall r, process_field r path = _extract_statistic_value r s.
Proof.
  intros Hin Hs. unfold FIELD_MAPPING in Hin.
  repeat (destruct Hin as [Hin|Hin];
          [injection Hin as <- <-;
           first [ exfalso; vm_compute in Hs; discriminate Hs
                 | eexists; split; [reflexivity | intros r; reflexivity] ] |]).
  destruct Hin.
Qed.

(** *** Paths that are not statistics lookups *)

Ltac eval_closed t :=
  let v := eval vm_compute in t in change t with v.

Lemma process_field_nested r path :
  startswith path "statistics_" = false ->
  is_date_path path = false ->
  process_field r path = _extract_nested_value r path.
Proof.
  intros Hs Hd. unfold process_field. rewrite Hs.
  destruct (_extract_nested_value r path) as [v|e].
  - rewrite bind_Ok, Hd. reflexivity.
  - reflexivity.
Qed.

Lemma is_date_path_cases path :
  is_date_path path = true -> path = "lastUpdated" \/ path = "publishedDate".
Proof.
  unfold is_date_path. intros H. apply orb_prop in H as [H|H];
    apply String.eqb_eq in H; auto.
Qed.

(** What the loop appends for a date path: the value itself when it is
    falsy, the first piece of [value.split('T')] otherwise. *)
Lemma process_field_date d path :
  is_date_path path = true ->
  process_field (JDict d) path
  = if py_truthy (dict_get path d)
    then parts ← py_split_method (dict_get path d) "T";
         first ← list_index parts 0;
         Ok (JStr first)
    else Ok (dict_get path d).
Proof.
  intros H. destruct (is_date_path_cases _ H) as [-> | ->];
    unfold process_field, _extract_nested_value.
  - eval_closed (startswith "lastUpdated" "statistics_").
    eval_closed (py_split "_" "lastUpdated").
    rewrite extract_one_key, bind_Ok.
    eval_closed (is_date_path "lastUpdated"). reflexivity.
  - eval_closed (startswith "publishedDate" "statistics_").
    eval_closed (py_split "_" "publishedDate").
    rewrite extract_one_key, bind_Ok.
    eval_closed (is_date_path "publishedDate"). reflexivity.
Qed.

Lemma process_field_date_string d path s :
  is_date_path path = true ->
  dict_get path d = JStr s ->
  process_field (JDict d) path = Ok (JStr (prefix_before "T" s)).
Proof.
  intros H Hv. rewrite (process_field_date d path H), Hv.
  destruct s as [|c s]; [reflexivity|].
  cbn [py_truthy String.eqb negb py_split_method].
  rewrite bind_Ok, py_split_head, bind_Ok. reflexivity.
Qed.

Lemma process_field_date_falsy d path :
  is_date_path path = true ->
  py_truthy (dict_get path d) = false ->
  process_field (JDict d) path = Ok (dict_get path d).
Proof.
  intros H Hv. now rewrite (process_field_date d path H), Hv.
Qed.

(** *** The row *)

Lemma process_fields_aligned r paths : forall row,
  process_fields r paths = Ok row <->
  Forall2 (fun path v => process_field r path = Ok v) paths row.
Proof.
  induction paths as [|path rest IH]; intros row; simpl.
  - split.
    + intros H. injection H as <-. constructor.
    + intros H. inversion H. reflexivity.
  - destruct (process_field r path) as [v|e] eqn:Ev.
    + rewrite bind_Ok. destruct (process_fields r rest) as [vs|e] eqn:Evs.
      * rewrite bind_Ok. split.
        -- intros H. injection H as <-. constructor; [assumption|].
           now apply IH.
        -- intros H. inversion H as [|? w ? ws Hw Hws]; subst.
           rewrite Ev in Hw. injection Hw as ->.
           apply IH in Hws. now injection Hws as ->.
      * rewrite bind_Raise. split; [discriminate|].
        intros H. inversion H as [|? w ? ws Hw Hws]; subst.
        apply IH in Hws. discriminate.
    + rewrite bind_Raise. split; [discriminate|].
      intros H. inversion H as [|? w ? ws Hw Hws]; subst.
      rewrite Ev in Hw. discriminate.
Qed.

Lemma process_fields_total r paths :
  (forall path, In path paths -> exists v, process_field r path = Ok v) ->
  exists row, process_fields r paths = Ok row.
Proof.
  induction paths as [|path rest IH]; intros H; simpl.
  - now exists [].
  - destruct (H path) as [v ->]; [now left|].
    destruct IH as [vs ->]; [intros p Hp; apply H; now right|].
    now exists (v :: vs).
Qed.

Lemma publisher_path_ok d k :
  match lookup_key "publisher" d with
  | None | Some JNull | Some (JDict _) => true
  | Some _ => false
  end = true ->
  exists v, extract_keys (JDict d) ["publisher"; k] = Ok v.
Proof.
  intros H. rewrite extract_keys_dict.
  destruct (lookup_key "publisher" d) as [p|]; [|now eexists].
  destruct p; try discriminate; [now eexists|].
  rewrite extract_one_key. now eexists.
Qed.

Lemma date_field_ok d path :
  is_date_path path = true ->
  date_value_ok (dict_get path d) = true ->
  exists v, process_field (JDict d) path = Ok v.
Proof.
  intros H Hv. unfold date_value_ok in Hv.
  destruct (py_truthy (dict_get path d)) eqn:Et.
  - destruct (dict_get path d) as [| | | |s| |] eqn:Eg; try discriminate.
    rewrite (process_field_date_string d path s H Eg). now eexists.
  - rewrite (process_field_date_falsy d path H Et). now eexists.
Qed.

(** Every column of the schema yields a value on an ExtensionRecord. *)
Lemma schema_field_ok r col path :
  extension_record r = true ->
  In (col, path) FIELD_MAPPING ->
  exists v, process_field r path = Ok v.
Proof.
  intros Hr Hin. destruct r as [| | | | | |d]; try discriminate.
  unfold extension_record in Hr.
  apply andb_prop in Hr as [Hr Hpub]. apply andb_prop in Hr as [Hr Hupd].
  apply andb_prop in Hr as [Hp Hs].
  destruct (statistics_sequence d) as [stats|] eqn:Es; [|discriminate].
  unfold FIELD_MAPPING in Hin.
  repeat (destruct Hin as [Hin|Hin];
    [injection Hin as <- <-;
     first
       [ apply date_field_ok; [reflexivity | assumption]
       | rewrite process_field_nested by reflexivity;
         first [ apply publisher_path_ok; assumption
               | unfold _extract_nested_value;
                 match goal with
                 | |- context [py_split ?c ?p] => eval_closed (py_split c p)
                 end;
                 rewrite extract_one_key; now eexists ]
       | match goal with
         | |- context [process_field _ ?p] =>
             destruct (statistics_path_target _ p
                         ltac:(unfold FIELD_MAPPING; simpl; tauto) eq_refl)
               as (s & _ & ->)
         end;
         rewrite (extract_statistic_value_first d s stats Es Hs);
         now eexists ] |]).
  destruct Hin.
Qed.

(** C2: for every ExtensionRecord, whichever of its fields are present or
    absent, [_process_extension] returns a row; and a row it returns, for
    any input at all, has exactly as many values as [FIELD_MAPPING] has
    entries, the value at each position being the one extracted for the
    path at that position of the schema. *)
Theorem flatten_row_full_width (r : json) :
  (extension_record r = true -> exists row, _process_extension r = Ok row)
  /\ (forall row,
        _process_extension r = Ok row ->
        List.length row = List.length FIELD_MAPPING
        /\ Forall2 (fun path v => process_field r path = Ok v)
             FIELD_MAPPING_values row).
Proof.
  split.
  - intros Hr. apply process_fields_total.
    intros path Hin. unfold FIELD_MAPPING_values in Hin.
    apply in_map_iff in Hin as ([col p] & <- & Hin).
    now apply (schema_field_ok r col p).
  - intros row Hrow. apply process_fields_aligned in Hrow.
    split; [|exact Hrow].
    apply Forall2_length in Hrow. rewrite <- Hrow.
    unfold FIELD_MAPPING_values. now rewrite length_map.
Qed.

Lemma flatten_row_full_width_witness :
  extension_record record_bare = true
  /\ exists row,
       _process_extension record_bare = Ok row
       /\ List.length row = List.length FIELD_MAPPING
       /\ Forall2 (fun path v => process_field record_bare path = Ok v)
            FIELD_MAPPING_values row.
Proof.
  split; [reflexivity|].
  destruct (flatten_row_full_width record_bare) as [Hrow Hwidth].
  destruct (Hrow eq_refl) as [row Hr].
  exists row. split; [exact Hr|]. now apply Hwidth.
Defined.

Example flatten_record_full :
  _process_extension record_full
  = Ok [ JStr "abc"; JNull; JNull; JStr "e1"; JNull; JNull;
         JStr "2021-05-01"; JNull;
         JInt 42; JNull; JNull; JNull; JNull; JNull;
         JNull; JList [JStr "a"; JStr "b"]; JNull; JNull ].
Proof. reflexivity. Qed.

(** C3, as the claim states it, fails: a record whose [publisher] is
    present but is a string makes [_process_extension] raise
    [AttributeError]. *)
Lemma flatten_raises_on_non_mapping_publisher :
  _process_extension (JDict [("publisher", JStr "abc")]) = Raise AttributeError.
Proof. reflexivity. Qed.

(** Other values of the wrong kind raise as well: a number as date, a
    [null] or a sequence with a non-mapping entry as statistics, a record
    that is not a mapping. *)
Example flatten_raises_elsewhere :
  _process_extension (JDict [("lastUpdated", JInt 5)]) = Raise AttributeError
  /\ _process_extension (JDict [("statistics", JNull)]) = Raise TypeError
  /\ _process_extension (JDict [("statistics", JList [JInt 1])])
     = Raise AttributeError
  /\ _process_extension (JList []) = Raise AttributeError.
Proof. repeat split. Qed.

(** C3, amended: for every ExtensionRecord (a mapping whose [publisher],
    [statistics] and dates have their expected kinds when present),
    [_process_extension] returns a full-width row and does not raise; a
    column whose nested lookup meets a missing key holds [None]. *)
Theorem flatten_total_on_extension_records (r : json) :
  extension_record r = true ->
  exists row,
    _process_extension r = Ok row
    /\ List.length row = List.length FIELD_MAPPING
    /\ forall (i : nat) path,
         FIELD_MAPPING_values !! i = Some path ->
         startswith path "statistics_" = false ->
         lookup_missing r (py_split "_" path) = true ->
         row !! i = Some JNull.
Proof.
  intros Hr.
  destruct (process_fields_total r FIELD_MAPPING_values) as [row Hrow].
  - intros path Hin. unfold FIELD_MAPPING_values in Hin.
    apply in_map_iff in Hin as ([col p] & <- & Hin).
    now apply (schema_field_ok r col p).
  - exists row. split; [exact Hrow|].
    apply process_fields_aligned in Hrow. split.
    + apply Forall2_length in Hrow. rewrite <- Hrow.
      unfold FIELD_MAPPING_values. now rewrite length_map.
    + intros i path Hi Hs Hm.
      destruct (Forall2_lookup_l _ _ _ _ _ Hrow Hi) as (v & Hv & Hf).
      rewrite Hv. f_equal.
      assert (Hn : _extract_nested_value r path = Ok JNull)
        by now apply extract_keys_missing.
      unfold process_field in Hf. rewrite Hs, Hn, bind_Ok in Hf.
      rewrite andb_false_r in Hf. now injection Hf as <-.
Qed.

Lemma flatten_total_on_extension_records_witness :
  extension_record record_bare = true
  /\ exists row,
       _process_extension record_bare = Ok row
       /\ List.length row = List.length FIELD_MAPPING
       /\ forall (i : nat) path,
            FIELD_MAPPING_values !! i = Some path ->
            startswith path "statistics_" = false ->
            lookup_missing record_bare (py_split "_" path) = true ->
            row !! i = Some JNull.
Proof.
  split; [reflexivity|].
  apply (flatten_total_on_extension_records record_bare). reflexivity.
Defined.

(** C4: for a schema entry whose path is a statistics lookup of name [s],
    and a record whose statistics sequence (empty when absent) is made of
    mappings, the column holds the value field of the first entry whose
    [statisticName] equals [s]; it holds [None] when the sequence is
    absent, when no entry matches and when the matching entry has no
    value field.  With statistics [[{statisticName: "install", value: 42}]]
    the [install] column holds 42 and every other statistics column
    [None]. *)
Theorem statistics_column_first_match :
  (forall col path d stats,
     In (col, path) FIELD_MAPPING ->
     startswith path "statistics_" = true ->
     statistics_sequence d = Some stats ->
     forallb is_dict stats = true ->
     exists s,
       path = ("statistics_" ++ s)%string
       /\ process_field (JDict d) path = Ok (first_statistic stats s)
       /\ (lookup_key "statistics" d = None ->
           process_field (JDict d) path = Ok JNull)
       /\ (List.find (statistic_named s) stats = None ->
           process_field (JDict d) path = Ok JNull)
       /\ (forall e,
             List.find (statistic_named s) stats = Some (JDict e) ->
             process_field (JDict d) path = Ok (dict_get "value" e)
             /\ (lookup_key "value" e = None ->
                 process_field (JDict d) path = Ok JNull)))
  /\ process_field record_install_42 "statistics_install" = Ok (JInt 42)
  /\ (forall col path,
        In (col, path) FIELD_MAPPING ->
        startswith path "statistics_" = true ->
        path <> "statistics_install" ->
        process_field record_install_42 path = Ok JNull).
Proof.
  split; [|split].
  - intros col path d stats Hin Hs Hseq Hd.
    destruct (statistics_path_target col path Hin Hs) as (s & -> & Hp).
    exists s. rewrite Hp, (extract_statistic_value_first d s stats Hseq Hd).
    split; [reflexivity|]. split; [reflexivity|].
    unfold first_statistic. split; [|split].
    + intros Habs. unfold statistics_sequence in Hseq. rewrite Habs in Hseq.
      injection Hseq as <-. reflexivity.
    + intros ->. reflexivity.
    + intros e ->. split; [reflexivity|].
      intros Hv. unfold dict_get. now rewrite Hv.
  - reflexivity.
  - intros col path Hin Hs Hne. unfold FIELD_MAPPING in Hin.
    repeat (destruct Hin as [Hin|Hin];
            [injection Hin as <- <-;
             first [ reflexivity
                   | exfalso; vm_compute in Hs; discriminate Hs
                   | exfalso; now apply Hne ] |]).
    destruct Hin.
Qed.

Lemma statistics_column_first_match_witness :
  process_field record_install_42 "statistics_install" = Ok (JInt 42)
  /\ process_field record_install_42 "statistics_ratingcount" = Ok JNull
  /\ exists s,
       "statistics_install" = ("statistics_" ++ s)%string
       /\ process_field record_install_42 "statistics_install"
          = Ok (first_statistic
                  [JDict [("statisticName", JStr "install"); ("value", JInt 42)]] s).
Proof.
  destruct statistics_column_first_match as (Hgen & H42 & Hother).
  split; [exact H42|]. split.
  - apply (Hother "ratingcount" "statistics_ratingcount").
    + unfold FIELD_MAPPING. simpl. tauto.
    + reflexivity.
    + discriminate.
  - destruct (Hgen "install" "statistics_install"
                [("statistics",
                  JList [JDict [("statisticName", JStr "install");
                                ("value", JInt 42)]])]
                [JDict [("statisticName", JStr "install"); ("value", JInt 42)]])
      as (s & Hs & Hv & _).
    + unfold FIELD_MAPPING. simpl. tauto.
    + reflexivity.
    + reflexivity.
    + reflexivity.
    + exists s. split; [exact Hs | exact Hv].
Defined.

(** C5: on the two date paths ([lastUpdated], [publishedDate]) a string
    value is cut to its prefix before the first [T], so that
    ["2021-05-01T10:00:00Z"] gives ["2021-05-01"]; [None] stays [None];
    on every other path of the schema the column holds the extracted
    value unchanged. *)
Theorem date_columns_truncated :
  (forall d path s,
     is_date_path path = true ->
     dict_get path d = JStr s ->
     process_field (JDict d) path = Ok (JStr (prefix_before "T" s)))
  /\ (forall d path,
        is_date_path path = true ->
        dict_get path d = JNull ->
        process_field (JDict d) path = Ok JNull)
  /\ (forall r col path,
        In (col, path) FIELD_MAPPING ->
        is_date_path path = false ->
        (startswith path "statistics_" = false ->
         process_field r path = _extract_nested_value r path)
        /\ (startswith path "statistics_" = true ->
            exists s, path = ("statistics_" ++ s)%string
              /\ process_field r path = _extract_statistic_value r s))
  /\ process_field (JDict [("lastUpdated", JStr "2021-05-01T10:00:00Z")])
       "lastUpdated" = Ok (JStr "2021-05-01")
  /\ (forall col path, In (col, path) FIELD_MAPPING ->
        (is_date_path path = true <-> col = "lastUpdated" \/ col = "publishedDate")).
Proof.
  split; [|split; [|split; [|split]]].
  - intros d path s. apply process_field_date_string.
  - intros d path H Hv.
    rewrite (process_field_date_falsy d path H); now rewrite Hv.
  - intros r col path Hin Hd. split.
    + intros Hs. now apply process_field_nested.
    + intros Hs. destruct (statistics_path_target col path Hin Hs) as (s & -> & Hp).
      exists s. split; [reflexivity | apply Hp].
  - reflexivity.
  - intros col path Hin. unfold FIELD_MAPPING in Hin.
    repeat (destruct Hin as [Hin|Hin];
            [injection Hin as <- <-; vm_compute; split;
             [ first [discriminate | tauto]
             | intros [H|H]; first [discriminate H | reflexivity] ] |]).
    destruct Hin.
Qed.

Lemma date_columns_truncated_witness :
  process_field (JDict [("publishedDate", JStr "2019-12-31T23:59:59.5Z")])
    "publishedDate" = Ok (JStr "2019-12-31")
  /\ process_field (JDict [("publishedDate", JNull)]) "publishedDate" = Ok JNull
  /\ process_field record_full "tags" = _extract_nested_value record_full "tags".
Proof.
  destruct date_columns_truncated as (Hstr & Hnone & Hother & _).
  split; [|split].
  - apply (Hstr [("publishedDate", JStr "2019-12-31T23:59:59.5Z")]
             "publishedDate" "2019-12-31T23:59:59.5Z"); reflexivity.
  - apply (Hnone [("publishedDate", JNull)] "publishedDate"); reflexivity.
  - apply (Hother record_full "tags" "tags").
    + unfold FIELD_MAPPING. simpl. tauto.
    + reflexivity.
    + reflexivity.
Defined.

(** ** The crawler *)

Lemma set_pageNumber_twice p q base :
  set_pageNumber p (set_pageNumber q base) = set_pageNumber p base.
Proof. reflexivity. Qed.

Lemma make_request_fetch server page w :
  _make_request server page w
  = (extensions ← fetch server (payload w) page; Ok (extensions, paged page w)).
Proof.
  unfold fetch, _make_request, paged. cbn [payload files save_calls].
  destruct (request_page server (set_pageNumber page (payload w))) as [v|e];
    [reflexivity|].
  destruct e; reflexivity.
Qed.

Lemma fetch_set_pageNumber server q base page :
  fetch server (set_pageNumber q base) page = fetch server base page.
Proof. reflexivity. Qed.

(** *** [_save_extensions] *)

Lemma lookup_key_dict_pop_same k d : lookup_key k (dict_pop k d) = None.
Proof.
  unfold dict_pop. induction d as [|[k' v] d IH]; [reflexivity|].
  cbn [List.filter fst]. destruct (String.eqb k' k) eqn:E; cbn [negb]; [exact IH|].
  cbn [lookup_key]. now rewrite E.
Qed.

Lemma lookup_key_dict_pop_other k k' d :
  k' <> k -> lookup_key k' (dict_pop k d) = lookup_key k' d.
Proof.
  intros Hne. unfold dict_pop. induction d as [|[k0 v] d IH]; [reflexivity|].
  cbn [List.filter fst lookup_key].
  destruct (String.eqb k0 k) eqn:E; cbn [negb].
  - apply String.eqb_eq in E as ->.
    destruct (String.eqb k k') eqn:E'; [|exact IH].
    apply String.eqb_eq in E'. congruence.
  - cbn [lookup_key]. now rewrite IH.
Qed.

Lemma pop_versions_dicts recs :
  forallb is_dict recs = true ->
  pop_versions recs = Ok (map strip_versions recs).
Proof.
  induction recs as [|r recs IH]; intros H; [reflexivity|].
  cbn [forallb] in H. apply andb_prop in H as [Hr Hrecs].
  destruct r; try discriminate.
  cbn [pop_versions py_pop map strip_versions].
  now rewrite bind_Ok, (IH Hrecs), bind_Ok.
Qed.

Lemma strip_versions_removed recs :
  forallb is_dict recs = true ->
  Forall2 only_versions_removed recs (map strip_versions recs).
Proof.
  induction recs as [|r recs IH]; intros H; [constructor|].
  cbn [forallb] in H. apply andb_prop in H as [Hr Hrecs].
  destruct r as [| | | | | |d]; try discriminate.
  constructor; [|now apply IH].
  exists d, (dict_pop "versions" d). repeat split.
  - apply lookup_key_dict_pop_same.
  - intros k Hk. now apply lookup_key_dict_pop_other.
Qed.

Lemma save_extensions_dicts disk recs page w :
  forallb is_dict recs = true ->
  _save_extensions disk (JList recs) page w
  = Ok (JList (map strip_versions recs),
        {| payload := payload w;
           files := snd (write_snapshot (disk page) page
                           (JList (map strip_versions recs)) (files w));
           save_calls := save_calls w ++ [page] |}).
Proof.
  intros H. unfold _save_extensions. cbn [py_iter].
  rewrite bind_Ok, (pop_versions_dicts recs H), bind_Ok.
  cbn [with_items]. unfold write_snapshot.
  destruct (disk page); reflexivity.
Qed.

(** *** The loop of [crawl] *)

Section CrawlLoop.

Variable server : payload_t -> response.
Variable disk : Z -> write_outcome.
Variable recs : Z -> list json.

Lemma crawl_loop_page page rest total w :
  page_yields server (payload w) recs page ->
  crawl_loop server disk (page :: rest) total w
  = crawl_loop server disk rest
      (total + Z.of_nat (List.length (recs page)))
      (after_page disk recs page w).
Proof.
  intros (Hf & Hne & Hd). cbn [crawl_loop].
  rewrite make_request_fetch, Hf, !bind_Ok.
  destruct (recs page) as [|r l] eqn:E; [congruence|].
  cbn [py_truthy negb py_len]. rewrite bind_Ok.
  rewrite (save_extensions_dicts disk (r :: l) page (paged page w) Hd), bind_Ok.
  unfold after_page, paged. cbn [payload files save_calls]. now rewrite E.
Qed.

Lemma crawl_loop_end page rest total w :
  page_ends server (payload w) page ->
  crawl_loop server disk (page :: rest) total w = Ok (total, paged page w).
Proof.
  intros [H|H]; cbn [crawl_loop]; now rewrite make_request_fetch, H, !bind_Ok.
Qed.

Lemma after_pages_cons page pages w :
  after_pages disk recs (page :: pages) w
  = after_pages disk recs pages (after_page disk recs page w).
Proof. reflexivity. Qed.

Lemma after_pages_payload pages : forall w p,
  fetch server (payload (after_pages disk recs pages w)) p
  = fetch server (payload w) p.
Proof.
  induction pages as [|page pages IH]; intros w p; [reflexivity|].
  now rewrite after_pages_cons, IH.
Qed.

Lemma crawl_loop_pages pages : forall rest total w,
  (forall p, p ∈ pages -> page_yields server (payload w) recs p) ->
  crawl_loop server disk (pages ++ rest) total w
  = crawl_loop server disk rest (total + page_counts recs pages)
      (after_pages disk recs pages w).
Proof.
  induction pages as [|page pages IH]; intros rest total w H.
  - cbn [app page_counts fold_right after_pages fold_left].
    now rewrite Z.add_0_r.
  - cbn [app]. rewrite crawl_loop_page by (apply H; left).
    rewrite IH.
    + rewrite after_pages_cons. unfold page_counts. cbn [fold_right].
      f_equal. lia.
    + intros p Hp. destruct (H p) as (Hf & Hrest); [now right|].
      split; [|exact Hrest]. exact Hf.
Qed.

Lemma after_pages_save_calls pages : forall w,
  save_calls (after_pages disk recs pages w) = (save_calls w ++ pages)%list.
Proof.
  induction pages as [|page pages IH]; intros w.
  - now rewrite app_nil_r.
  - rewrite after_pages_cons, IH.
    cbn [after_page save_calls]. now rewrite <- app_assoc.
Qed.

Lemma after_page_files page w p :
  files (after_page disk recs page w) !! p
  = if decide (p = page) then written_file disk recs page (files w !! p)
    else files w !! p.
Proof.
  unfold after_page, written_file, write_snapshot. cbn [files].
  destruct (decide (p = page)) as [->|Hne]; destruct (disk page); cbn [snd];
    rewrite ?lookup_insert_eq, ?lookup_insert_ne by congruence; reflexivity.
Qed.

Lemma after_pages_files_other pages : forall w p,
  p ∉ pages ->
  files (after_pages disk recs pages w) !! p = files w !! p.
Proof.
  induction pages as [|page pages IH]; intros w p Hp; [reflexivity|].
  rewrite after_pages_cons.
  rewrite IH by (intros Hin; apply Hp; now right).
  rewrite after_page_files. destruct (decide (p = page)) as [->|]; [|reflexivity].
  exfalso. apply Hp. now left.
Qed.

Lemma after_pages_files_in pages : forall w p,
  NoDup pages -> p ∈ pages ->
  files (after_pages disk recs pages w) !! p = written_file disk recs p (files w !! p).
Proof.
  induction pages as [|page pages IH]; intros w p Hnd Hp;
    [now apply elem_of_nil in Hp|].
  apply NoDup_cons in Hnd as [Hnotin Hnd].
  rewrite after_pages_cons.
  apply elem_of_cons in Hp as [->|Hp].
  - rewrite (after_pages_files_other pages _ page Hnotin), after_page_files.
    now rewrite decide_True.
  - rewrite (IH _ p Hnd Hp), after_page_files.
    rewrite decide_False; [reflexivity|]. intros ->. now apply Hnotin.
Qed.

End CrawlLoop.

Lemma elem_of_py_range p a b : p ∈ py_range a b <-> a <= p < b.
Proof. unfold py_range. rewrite elem_of_seqZ. lia. Qed.

Lemma py_range_split a m b :
  a <= m <= b -> py_range a b = (py_range a m ++ py_range m b)%list.
Proof.
  intros H. unfold py_range.
  replace (b - a) with ((m - a) + (b - m)) by lia.
  rewrite seqZ_app by lia. do 2 f_equal. lia.
Qed.

Lemma py_range_cons a b : a < b -> py_range a b = a :: py_range (a + 1) b.
Proof.
  intros H. unfold py_range. rewrite seqZ_cons by lia.
  do 2 f_equal; lia.
Qed.

Lemma py_range_nil a b : b <= a -> py_range a b = [].
Proof. intros H. unfold py_range. apply seqZ_nil. lia. Qed.

Lemma length_py_range a b : a <= b -> Z.of_nat (List.length (py_range a b)) = b - a.
Proof. intros H. unfold py_range. rewrite length_seqZ. lia. Qed.

(** What a crawl does when pages [1..k] yield records and the crawl ends
    there, by an empty page or at the cap. *)
Lemma crawl_run server disk recs max_pages k w0 :
  0 <= k <= max_pages ->
  (forall p, 1 <= p <= k -> page_yields server (payload w0) recs p) ->
  (k < max_pages -> page_ends server (payload w0) (k + 1)) ->
  exists w',
    crawl server disk max_pages w0
    = Ok (page_counts recs (py_range 1 (k + 1)), w')
    /\ save_calls w' = (save_calls w0 ++ py_range 1 (k + 1))%list
    /\ files w' = files (after_pages disk recs (py_range 1 (k + 1)) w0).
Proof.
  intros Hk Hgood Hend. unfold crawl.
  rewrite (py_range_split 1 (k + 1) (max_pages + 1)) by lia.
  rewrite (crawl_loop_pages server disk recs)
    by (intros p Hp; apply Hgood; apply elem_of_py_range in Hp; lia).
  rewrite Z.add_0_l.
  destruct (Z.eq_dec k max_pages) as [->|Hlt].
  - rewrite py_range_nil by lia. cbn [crawl_loop].
    eexists. split; [reflexivity|]. split; [|reflexivity].
    apply after_pages_save_calls.
  - rewrite (py_range_cons (k + 1)) by lia.
    rewrite crawl_loop_end.
    + eexists. split; [reflexivity|]. split; [|reflexivity].
      cbn [paged save_calls]. apply after_pages_save_calls.
    + destruct Hend as [H|H]; [lia| |]; [left|right];
        now rewrite after_pages_payload.
Qed.

Lemma snapshot_records_written disk recs p :
  0 <= snapshot_records (written_file disk recs p None)
    <= Z.of_nat (List.length (recs p))
  /\ (disk p <> Written -> snapshot_records (written_file disk recs p None) = 0).
Proof.
  unfold written_file. destruct (disk p); cbn [snapshot_records].
  - rewrite length_map. split; [lia|congruence].
  - split; [lia|reflexivity].
  - split; [lia|reflexivity].
Qed.

Lemma records_on_disk_le disk recs fs pages :
  (forall p, p ∈ pages -> fs !! p = written_file disk recs p None) ->
  records_on_disk fs pages <= page_counts recs pages.
Proof.
  induction pages as [|page pages IH]; intros H; [reflexivity|].
  unfold records_on_disk, page_counts in *. cbn [fold_right].
  rewrite (H page) by now left.
  pose proof (snapshot_records_written disk recs page) as [Hle _].
  assert (Hrest : forall p, p ∈ pages -> fs !! p = written_file disk recs p None)
    by (intros p Hp; apply H; now right).
  specialize (IH Hrest). lia.
Qed.

Lemma records_on_disk_failed disk recs fs pages q :
  (forall p, p ∈ pages -> fs !! p = written_file disk recs p None) ->
  q ∈ pages -> disk q <> Written ->
  records_on_disk fs pages + Z.of_nat (List.length (recs q))
  <= page_counts recs pages.
Proof.
  induction pages as [|page pages IH]; intros H Hq Hfail;
    [now apply elem_of_nil in Hq|].
  assert (Hrest : forall p, p ∈ pages -> fs !! p = written_file disk recs p None)
    by (intros p Hp; apply H; now right).
  pose proof (records_on_disk_le disk recs fs pages Hrest) as Hle.
  pose proof (snapshot_records_written disk recs page) as [Hpage Hzero].
  unfold records_on_disk, page_counts in *. cbn [fold_right].
  rewrite (H page) by now left.
  apply elem_of_cons in Hq as [->|Hq].
  - rewrite (Hzero Hfail). lia.
  - specialize (IH Hrest Hq Hfail). lia.
Qed.

(** C1: when pages [1..k] are fetched as non-empty lists of records and
    page [k+1] as an empty list or a failure (with [k+1 <= max_pages]),
    [crawl] returns the sum of the record counts of pages [1..k] and
    calls [_save_extensions] exactly [k] times, once for each of these
    pages, in order; a page whose write succeeds has its file.  When all
    pages up to [max_pages] are non-empty ([k = max_pages]) the loop ends
    at the cap with the sum over all of them, and [crawl] returns
    normally. *)
Theorem crawl_total_is_sum_of_page_counts server disk recs max_pages k w0 :
  0 <= k <= max_pages ->
  (forall p, 1 <= p <= k -> page_yields server (payload w0) recs p) ->
  (k < max_pages -> page_ends server (payload w0) (k + 1)) ->
  exists w',
    crawl server disk max_pages w0
    = Ok (page_counts recs (py_range 1 (k + 1)), w')
    /\ save_calls w' = (save_calls w0 ++ py_range 1 (k + 1))%list
    /\ Z.of_nat (List.length (py_range 1 (k + 1))) = k
    /\ forall p, 1 <= p <= k -> disk p = Written ->
         files w' !! p
         = Some (Complete (JList (map strip_versions (recs p)))).
Proof.
  intros Hk Hgood Hend.
  destruct (crawl_run server disk recs max_pages k w0 Hk Hgood Hend)
    as (w' & Hrun & Hcalls & Hfiles).
  exists w'. split; [exact Hrun|]. split; [exact Hcalls|]. split.
  - rewrite length_py_range; lia.
  - intros p Hp Hw. rewrite Hfiles.
    rewrite after_pages_files_in.
    + unfold written_file. now rewrite Hw.
    + apply NoDup_seqZ.
    + apply elem_of_py_range. lia.
Qed.

Lemma sample_pages_yield p :
  1 <= p <= 2 -> page_yields sample_server (payload initial_world) sample_recs p.
Proof.
  intros Hp. assert (Hcases : p = 1 \/ p = 2) by lia.
  destruct Hcases as [-> | ->]; (split; [reflexivity|]);
    (split; [discriminate | reflexivity]).
Defined.

Lemma sample_page_3_ends :
  page_ends sample_server (payload initial_world) (2 + 1).
Proof. left. reflexivity. Defined.

Lemma crawl_total_is_sum_of_page_counts_witness :
  exists w',
    crawl sample_server good_disk 100 initial_world
    = Ok (page_counts sample_recs (py_range 1 (2 + 1)), w')
    /\ save_calls w' = (save_calls initial_world ++ py_range 1 (2 + 1))%list
    /\ Z.of_nat (List.length (py_range 1 (2 + 1))) = 2
    /\ forall p, 1 <= p <= 2 -> good_disk p = Written ->
         files w' !! p
         = Some (Complete (JList (map strip_versions (sample_recs p)))).
Proof.
  apply (crawl_total_is_sum_of_page_counts sample_server good_disk sample_recs
           100 2 initial_world).
  - lia.
  - exact sample_pages_yield.
  - intros _. exact sample_page_3_ends.
Defined.

Lemma crawl_no_pages server disk max_pages w :
  max_pages <= 0 -> crawl server disk max_pages w = Ok (0, w).
Proof.
  intros H. unfold crawl. now rewrite py_range_nil by lia.
Qed.

(** A page whose list holds something that is not a mapping makes
    [_save_extensions], and with it [crawl], raise. *)
Example crawl_raises_on_non_mapping_record :
  crawl (fun _ => Answer 200 (page_body [JInt 1])) good_disk 100 initial_world
  = Raise AttributeError.
Proof. vm_compute. reflexivity. Qed.

Example crawl_sample_total :
  fst <$> crawl sample_server good_disk 100 initial_world = Ok 3
  /\ fst <$> crawl sample_server good_disk 1 initial_world = Ok 2
  /\ fst <$> crawl sample_server good_disk 0 initial_world = Ok 0.
Proof. repeat split; vm_compute; reflexivity. Qed.

(** C7: for every list of records and every page, [_save_extensions]
    returns, after it every record lacks the [versions] key and has every
    other entry as before, and the file written for the page holds
    exactly these records; the payload and the files of other pages are
    left alone. *)
Theorem save_strips_only_versions disk recs page w :
  forallb is_dict recs = true ->
  exists recs' w',
    _save_extensions disk (JList recs) page w = Ok (JList recs', w')
    /\ Forall2 only_versions_removed recs recs'
    /\ (disk page = Written ->
        files w' !! page = Some (Complete (JList recs')))
    /\ payload w' = payload w
    /\ forall q, q <> page -> files w' !! q = files w !! q.
Proof.
  intros H. eexists. eexists.
  split; [apply (save_extensions_dicts disk recs page w H)|].
  split; [now apply strip_versions_removed|].
  cbn [files payload]. unfold write_snapshot. split; [|split; [reflexivity|]].
  - intros ->. cbn [snd]. apply lookup_insert_eq.
  - intros q Hq. destruct (disk page); cbn [snd];
      rewrite ?lookup_insert_ne by congruence; reflexivity.
Qed.

Lemma save_strips_only_versions_witness :
  exists recs' w',
    _save_extensions good_disk (JList (sample_recs 1)) 1 initial_world
    = Ok (JList recs', w')
    /\ Forall2 only_versions_removed (sample_recs 1) recs'
    /\ (good_disk 1 = Written ->
        files w' !! 1 = Some (Complete (JList recs')))
    /\ payload w' = payload initial_world
    /\ forall q, q <> 1 -> files w' !! q = files initial_world !! q.
Proof.
  apply (save_strips_only_versions good_disk (sample_recs 1) 1 initial_world).
  reflexivity.
Defined.

Example save_sample_page :
  fst <$> _save_extensions good_disk (JList (sample_recs 2)) 2 initial_world
  = Ok (JList [JDict [("extensionName", JStr "c"); ("flags", JStr "validated")]]).
Proof. vm_compute. reflexivity. Qed.

(** C10: when the write of a fetched page [q] fails with an I/O error,
    [crawl] has added the page's record count to the total already and
    goes on with the next page: the total is the sum over all fetched
    pages whatever the disk does, while the directory, empty before the
    crawl, holds fewer records than the total says. *)
Theorem crawl_counts_pages_not_written server disk recs max_pages k w0 q :
  0 <= k <= max_pages ->
  (forall p, 1 <= p <= k -> page_yields server (payload w0) recs p) ->
  (k < max_pages -> page_ends server (payload w0) (k + 1)) ->
  files w0 = ∅ ->
  1 <= q <= k ->
  disk q <> Written ->
  exists w',
    crawl server disk max_pages w0
    = Ok (page_counts recs (py_range 1 (k + 1)), w')
    /\ save_calls w' = (save_calls w0 ++ py_range 1 (k + 1))%list
    /\ snapshot_records (files w' !! q) = 0
    /\ (forall p, ~ 1 <= p <= k -> files w' !! p = None)
    /\ records_on_disk (files w') (py_range 1 (k + 1))
       + Z.of_nat (List.length (recs q))
       <= page_counts recs (py_range 1 (k + 1))
    /\ records_on_disk (files w') (py_range 1 (k + 1))
       < page_counts recs (py_range 1 (k + 1)).
Proof.
  intros Hk Hgood Hend Hempty Hq Hfail.
  destruct (crawl_run server disk recs max_pages k w0 Hk Hgood Hend)
    as (w' & Hrun & Hcalls & Hfiles).
  assert (Hin : forall p, p ∈ py_range 1 (k + 1) ->
                  files w' !! p = written_file disk recs p None).
  { intros p Hp. rewrite Hfiles, after_pages_files_in.
    - now rewrite Hempty, lookup_empty.
    - apply NoDup_seqZ.
    - exact Hp. }
  assert (Hqin : q ∈ py_range 1 (k + 1)) by (apply elem_of_py_range; lia).
  pose proof (records_on_disk_failed disk recs (files w') _ q Hin Hqin Hfail)
    as Hsum.
  exists w'. split; [exact Hrun|]. split; [exact Hcalls|]. split; [|split; [|split]].
  - rewrite (Hin q Hqin).
    now apply (snapshot_records_written disk recs q).
  - intros p Hp. rewrite Hfiles, after_pages_files_other.
    + now rewrite Hempty, lookup_empty.
    + rewrite elem_of_py_range. lia.
  - exact Hsum.
  - destruct (Hgood q Hq) as (_ & Hne & _).
    destruct (recs q) as [|r l]; [congruence|]. cbn [List.length] in Hsum. lia.
Qed.

Lemma crawl_counts_pages_not_written_witness :
  exists w',
    crawl sample_server failing_disk 100 initial_world
    = Ok (page_counts sample_recs (py_range 1 (2 + 1)), w')
    /\ save_calls w' = (save_calls initial_world ++ py_range 1 (2 + 1))%list
    /\ snapshot_records (files w' !! 1) = 0
    /\ (forall p, ~ 1 <= p <= 2 -> files w' !! p = None)
    /\ records_on_disk (files w') (py_range 1 (2 + 1))
       + Z.of_nat (List.length (sample_recs 1))
       <= page_counts sample_recs (py_range 1 (2 + 1))
    /\ records_on_disk (files w') (py_range 1 (2 + 1))
       < page_counts sample_recs (py_range 1 (2 + 1)).
Proof.
  apply (crawl_counts_pages_not_written sample_server failing_disk sample_recs
           100 2 initial_world 1).
  - lia.
  - exact sample_pages_yield.
  - intros _. exact sample_page_3_ends.
  - reflexivity.
  - lia.
  - discriminate.
Defined.

Example crawl_sample_failing_disk :
  (fun r => (fst r, records_on_disk (files (snd r)) [1; 2; 3]))
    <$> crawl sample_server failing_disk 100 initial_world
  = Ok (3, 1).
Proof. vm_compute. reflexivity. Qed.

(** *** [_make_request] *)

(** C6, as the claim states it, fails: a successful response whose body
    is the empty object has no [results[0].extensions], and the fetch
    returns the empty list, where a connection error returns [None]. *)
Lemma fetch_empty_object_is_not_failure :
  fetch (fun _ => Answer 200 (JDict [])) _get_default_payload 1 = Ok (JList [])
  /\ fetch (fun _ => ConnectionFailed) _get_default_payload 1 = Ok JNull
  /\ fetch (fun _ => Answer 200 (JDict [])) _get_default_payload 1 <> Ok JNull.
Proof. repeat split. discriminate. Qed.

(** A body whose [results] is [null], or whose [results[0]] is a number,
    leaves [_make_request] through an exception neither [except] clause
    names. *)
Example fetch_raises_on_null_results :
  fetch (fun _ => Answer 200 (JDict [("results", JNull)])) _get_default_payload 1
  = Raise TypeError
  /\ fetch (fun _ => Answer 200 (JDict [("results", JList [JInt 1])]))
       _get_default_payload 1
     = Raise AttributeError
  /\ fetch (fun _ => Answer 200 (JList [])) _get_default_payload 1
     = Raise AttributeError.
Proof. repeat split. Qed.

Lemma fetch_answer server base page code d :
  server (set_pageNumber page base) = Answer code (JDict d) ->
  (400 <=? code) && (code <? 600) = false ->
  fetch server base page
  = match
      (results ← py_get (JDict d) "results" (JList [JDict []]);
       first ← py_index0 results;
       py_get first "extensions" (JList []))
    with
    | Ok extensions => Ok extensions
    | Raise RequestException | Raise KeyError | Raise IndexError => Ok JNull
    | Raise e => Raise e
    end.
Proof.
  intros Ha Hc. unfold fetch, _make_request, request_page, requests_post.
  cbn [payload]. rewrite Ha, bind_Ok. cbn [raise_for_status]. rewrite Hc, bind_Ok.
  cbn [response_json]. rewrite bind_Ok.
  destruct (results ← py_get (JDict d) "results" (JList [JDict []]);
            first ← py_index0 results;
            py_get first "extensions" (JList [])) as [v|e]; [reflexivity|].
  destruct e; reflexivity.
Qed.

(** C6, amended: [_make_request] returns [None] without raising on a
    transport failure (no connection, timeout, a 4xx or 5xx status) and
    on a successful response whose body is a mapping with an empty list
    or a mapping as [results]; when the body is a mapping without
    [results], or [results[0]] is a mapping without [extensions], it
    returns the empty list, not [None]; when [results[0]] is a mapping
    with [extensions] it returns that value. *)
Theorem fetch_failure_or_empty_list server base page :
  (server (set_pageNumber page base) = ConnectionFailed
   \/ server (set_pageNumber page base) = TimedOut
   \/ (exists code body,
         server (set_pageNumber page base) = Answer code body
         /\ 400 <= code < 600) ->
   fetch server base page = Ok JNull)
  /\ (forall code d,
        server (set_pageNumber page base) = Answer code (JDict d) ->
        ~ 400 <= code < 600 ->
        (lookup_key "results" d = None ->
         fetch server base page = Ok (JList []))
        /\ (lookup_key "results" d = Some (JList []) ->
            fetch server base page = Ok JNull)
        /\ (forall e, lookup_key "results" d = Some (JDict e) ->
            fetch server base page = Ok JNull)
        /\ (forall e rest,
              lookup_key "results" d = Some (JList (JDict e :: rest)) ->
              fetch server base page
              = Ok (match lookup_key "extensions" e with
                    | Some extensions => extensions
                    | None => JList []
                    end))).
Proof.
  split.
  - intros [H | [H | (code & body & H & Hc)]];
      unfold fetch, _make_request, request_page, requests_post; cbn [payload];
      rewrite H; try reflexivity.
    rewrite bind_Ok. cbn [raise_for_status].
    replace ((400 <=? code) && (code <? 600)) with true; [reflexivity|].
    symmetry. apply andb_true_intro. split; [apply Z.leb_le | apply Z.ltb_lt]; lia.
  - intros code d Ha Hc.
    assert (Hcode : (400 <=? code) && (code <? 600) = false).
    { destruct (400 <=? code) eqn:E1; [|reflexivity].
      destruct (code <? 600) eqn:E2; [|reflexivity].
      apply Z.leb_le in E1. apply Z.ltb_lt in E2. lia. }
    rewrite (fetch_answer server base page code d Ha Hcode), py_get_dict.
    repeat split.
    + intros ->. reflexivity.
    + intros ->. reflexivity.
    + intros e ->. reflexivity.
    + intros e rest ->. rewrite bind_Ok. cbn [py_index0 list_index nth_error].
      rewrite bind_Ok, py_get_dict. reflexivity.
Qed.

Lemma fetch_failure_or_empty_list_witness :
  fetch (fun _ => Answer 503 JNull) _get_default_payload 7 = Ok JNull
  /\ fetch (fun _ => Answer 200 (JDict [("results", JList [])]))
       _get_default_payload 7 = Ok JNull
  /\ fetch sample_server _get_default_payload 2 = Ok (JList (sample_recs 2)).
Proof.
  split; [|split].
  - apply (fetch_failure_or_empty_list (fun _ => Answer 503 JNull)
             _get_default_payload 7).
    right. right. exists 503, JNull. split; [reflexivity | lia].
  - destruct (fetch_failure_or_empty_list
                (fun _ => Answer 200 (JDict [("results", JList [])]))
                _get_default_payload 7) as [_ Hbody].
    apply (Hbody 200 [("results", JList [])]); [reflexivity | lia | reflexivity].
  - destruct (fetch_failure_or_empty_list sample_server _get_default_payload 2)
      as [_ Hbody].
    destruct (Hbody 200
                [("results", JList [JDict [("extensions", JList (sample_recs 2))]])])
      as (_ & _ & _ & Hfirst); [reflexivity | lia |].
    apply (Hfirst [("extensions", JList (sample_recs 2))] []). reflexivity.
Defined.

(** ** The export to SQLite *)

Section ExportProperties.

Context {frame table : Type}.
Variable read_csv : string -> result frame.
Variable create_table : frame -> table.
Variable insert_rows : table -> frame -> table.

Abbreviation export := (export_to_sqlite frame table read_csv create_table insert_rows).
Abbreviation to_sql_ := (to_sql frame table create_table insert_rows).

Lemma to_sql_replace df name db :
  to_sql_ df name if_exists_replace db = Ok (<[name := create_table df]> db).
Proof. unfold to_sql. now destruct (db !! name). Qed.

(** What one run leaves behind. *)
Lemma export_to_sqlite_ok csv_file db_file table_name (st st1 : store table) :
  export csv_file db_file table_name st = Ok st1 ->
  exists text df,
    text_files st !! csv_file = Some text
    /\ read_csv text = Ok df
    /\ st1 = {| text_files := text_files st;
                databases :=
                  <[db_file := <[table_name := create_table df]>
                                 (sqlite3_connect table db_file st)]>
                    (databases st) |}.
Proof.
  unfold export_to_sqlite, open_text. intros H.
  destruct (text_files st !! csv_file) as [text|] eqn:Ht; [|discriminate].
  rewrite bind_Ok in H.
  destruct (read_csv text) as [df|e] eqn:Hdf; [|discriminate].
  rewrite bind_Ok, to_sql_replace, bind_Ok in H.
  injection H as <-. now exists text, df.
Qed.

(** C8: running [export_to_sqlite] a second time on the text table the
    first run read gives the state the first run gave: the table is
    replaced by the same rows, and a run that raises raises again. *)
Theorem export_to_sqlite_idempotent csv_file db_file table_name
    (st : store table) :
  (st1 ← export csv_file db_file table_name st;
   export csv_file db_file table_name st1)
  = export csv_file db_file table_name st
  /\ forall st1,
       export csv_file db_file table_name st = Ok st1 ->
       export csv_file db_file table_name st1 = Ok st1
       /\ text_files st1 = text_files st
       /\ exists text df,
            text_files st !! csv_file = Some text
            /\ read_csv text = Ok df
            /\ (databases st1 !! db_file ≫= (fun db => db !! table_name))
               = Some (create_table df).
Proof.
  assert (Hagain : forall st1,
             export csv_file db_file table_name st = Ok st1 ->
             export csv_file db_file table_name st1 = Ok st1).
  { intros st1 H.
    destruct (export_to_sqlite_ok _ _ _ _ _ H) as (text & df & Ht & Hdf & ->).
    unfold export_to_sqlite, open_text, sqlite3_connect.
    cbn [text_files databases].
    rewrite Ht, bind_Ok, Hdf, bind_Ok, to_sql_replace, bind_Ok.
    rewrite lookup_insert_eq, !insert_insert_eq. reflexivity. }
  split.
  - destruct (export csv_file db_file table_name st) as [st1|e] eqn:E;
      [|reflexivity].
    rewrite bind_Ok. now apply Hagain.
  - intros st1 H. split; [now apply Hagain|].
    destruct (export_to_sqlite_ok _ _ _ _ _ H) as (text & df & Ht & Hdf & ->).
    split; [reflexivity|]. exists text, df.
    split; [exact Ht|]. split; [exact Hdf|].
    cbn [databases]. rewrite lookup_insert_eq. cbn.
    apply lookup_insert_eq.
Qed.

End ExportProperties.

Lemma export_to_sqlite_idempotent_witness :
  exists st1,
    sample_export sample_store = Ok st1
    /\ sample_export st1 = Ok st1
    /\ text_files st1 = text_files sample_store.
Proof.
  destruct (sample_export sample_store) as [st1|e] eqn:E.
  - exists st1. split; [reflexivity|].
    destruct (export_to_sqlite_idempotent lines_read_csv lines_create_table
                lines_insert_rows "vscode_extensions.csv" "vscode_extensions.db"
                "vscode_extensions" sample_store) as [_ Hagain].
    destruct (Hagain st1 E) as (H1 & H2 & _). split; [exact H1 | exact H2].
  - exfalso. vm_compute in E. discriminate E.
Defined.

(** The stale table is replaced by the rows of the text table, the other
    table of the database is kept. *)
Example export_sample_store :
  (fun st : store (list string) =>
     (databases st !! "vscode_extensions.db" ≫= (fun db => db !! "vscode_extensions"),
      databases st !! "vscode_extensions.db" ≫= (fun db => db !! "other")))
    <$> sample_export sample_store
  = Ok (Some ["e1,42"], Some ["kept"]).
Proof. vm_compute. reflexivity. Qed.

(** With [if_exists='append'] a second load would add the rows again. *)
Example to_sql_append_twice :
  (db ← to_sql (list string) (list string) lines_create_table lines_insert_rows
          ["h"; "r1"] "t" if_exists_append ∅;
   db' ← to_sql (list string) (list string) lines_create_table lines_insert_rows
           ["h"; "r1"] "t" if_exists_append db;
   Ok (db' !! "t"))
  = Ok (Some ["r1"; "r1"]).
Proof. vm_compute. reflexivity. Qed.

(** * Further properties *)

(** ** Splitting and joining *)

Lemma py_join_cons (sep : ascii) (x y : string) (l : list string) :
  py_join sep (x :: y :: l) = (x ++ String sep (py_join sep (y :: l)))%string.
Proof. reflexivity. Qed.

Lemma py_join_split_go (sep : ascii) (s cur : string) :
  py_join sep (split_go sep cur s) = (cur ++ s)%string.
Proof.
  revert cur. induction s as [|c rest IH]; intros cur.
  - cbn [split_go py_join]. now rewrite append_empty_r.
  - cbn [split_go]. destruct (Ascii.eqb c sep) eqn:E.
    + apply Ascii.eqb_eq in E as ->.
      destruct (split_go_head sep rest EmptyString) as [tl Htl].
      specialize (IH EmptyString). rewrite Htl in IH |- *.
      now rewrite py_join_cons, IH.
    + rewrite IH. apply append_snoc.
Qed.

Lemma split_go_pieces (sep : ascii) (s : string) : forall cur,
  contains_char sep cur = false ->
  Forall (fun piece => contains_char sep piece = false) (split_go sep cur s).
Proof.
  induction s as [|c rest IH]; intros cur Hcur; cbn [split_go].
  - now constructor.
  - destruct (Ascii.eqb c sep) eqn:E.
    + constructor; [exact Hcur|]. now apply IH.
    + apply IH. clear IH. induction cur as [|a cur IHc].
      * change (contains_char sep (String c EmptyString) = false).
        cbn [contains_char]. now rewrite E.
      * change (contains_char sep (String a (cur ++ String c EmptyString)) = false).
        cbn [contains_char] in Hcur |- *.
        apply orb_false_elim in Hcur as [Ha Hc]. rewrite Ha. now apply IHc.
Qed.

(** X1 (split): joining the pieces of [s.split(sep)] with [sep] gives [s]
    back, and no piece contains [sep]. *)
Theorem py_split_join_round_trip (sep : ascii) (s : string) :
  py_join sep (py_split sep s) = s
  /\ Forall (fun piece => contains_char sep piece = false) (py_split sep s).
Proof.
  split.
  - apply (py_join_split_go sep s EmptyString).
  - now apply split_go_pieces.
Qed.

(** ** The flattener, beyond well-formed records *)

Lemma py_get_raise v k default e :
  py_get v k default = Raise e -> e = AttributeError.
Proof.
  destruct v; cbn [py_get]; try (intros H; now injection H as <-).
  destruct (lookup_key k entries); discriminate.
Qed.

Lemma extract_keys_raise keys : forall v e,
  extract_keys v keys = Raise e -> e = AttributeError.
Proof.
  induction keys as [|k rest IH]; intros v e H; [discriminate|].
  cbn [extract_keys] in H.
  destruct (py_get v k JNull) as [x|e'] eqn:Eg.
  - rewrite bind_Ok in H. destruct (is_None x); [discriminate|].
    now apply (IH x).
  - rewrite bind_Raise in H. injection H as <-.
    now apply (py_get_raise v k JNull).
Qed.

(** X2: [_extract_nested_value] raises nothing but [AttributeError], and
    it raises exactly when a value it has to index into is neither a
    mapping nor reached through a missing key or a [None]. *)
Theorem extract_nested_value_raises_on_non_mapping (data : json) (path : string) :
  (forall e, _extract_nested_value data path = Raise e -> e = AttributeError)
  /\ is_ok (_extract_nested_value data path)
     = mappings_along data (py_split "_" path).
Proof.
  split.
  - intros e. apply extract_keys_raise.
  - apply extract_keys_ok.
Qed.

Lemma extract_nested_value_raises_on_non_mapping_witness :
  _extract_nested_value (JDict [("publisher", JList [])]) "publisher_displayName"
  = Raise AttributeError
  /\ AttributeError = AttributeError
  /\ is_ok (_extract_nested_value (JDict [("publisher", JNull)])
              "publisher_displayName") = true.
Proof.
  split; [reflexivity|].
  destruct (extract_nested_value_raises_on_non_mapping
              (JDict [("publisher", JList [])]) "publisher_displayName")
    as [Hraise _].
  split; [apply (Hraise AttributeError); reflexivity|].
  destruct (extract_nested_value_raises_on_non_mapping
              (JDict [("publisher", JNull)]) "publisher_displayName")
    as [_ Hok].
  rewrite Hok. reflexivity.
Defined.

Lemma startswith_append (p s : string) :
  startswith s p = true -> exists rest, s = (p ++ rest)%string.
Proof.
  revert s. induction p as [|a p IH]; intros s H.
  - now exists s.
  - destruct s as [|b s]; [discriminate|].
    cbn [startswith] in H. apply andb_prop in H as [Hab Hs].
    apply Ascii.eqb_eq in Hab as ->.
    destruct (IH s Hs) as [rest ->]. now exists rest.
Qed.

Lemma statistics_path_split (rest : string) :
  list_index (py_split "_" ("statistics_" ++ rest)%string) 1
  = Ok (prefix_before "_" rest).
Proof.
  change (py_split "_" ("statistics_" ++ rest)%string)
    with ("statistics" :: split_go "_" EmptyString rest).
  destruct (split_go_head "_" rest EmptyString) as [tl ->]. reflexivity.
Qed.

(** X3: a path that starts with [statistics_] targets the statistic
    named by what stands between the marker and the next underscore, for
    any path: [split('_')[1]] is always in range, and a name with an
    underscore is cut at it. *)
Theorem statistics_path_targets_second_segment (r : json) (path : string) :
  startswith path "statistics_" = true ->
  exists rest,
    path = ("statistics_" ++ rest)%string
    /\ process_field r path
       = _extract_statistic_value r (prefix_before "_" rest).
Proof.
  intros H. destruct (startswith_append _ _ H) as [rest ->].
  exists rest. split; [reflexivity|].
  unfold process_field. rewrite H, statistics_path_split. reflexivity.
Qed.

Lemma statistics_path_targets_second_segment_witness :
  exists rest,
    "statistics_rating_count" = ("statistics_" ++ rest)%string
    /\ process_field record_install_42 "statistics_rating_count"
       = _extract_statistic_value record_install_42 (prefix_before "_" rest).
Proof.
  apply (statistics_path_targets_second_segment record_install_42
           "statistics_rating_count").
  reflexivity.
Defined.

Lemma scan_statistics_skip before : forall rest s,
  forallb is_dict before = true ->
  forallb (fun x => negb (statistic_named s x)) before = true ->
  scan_statistics (before ++ rest) s = scan_statistics rest s.
Proof.
  induction before as [|x before IH]; intros rest s Hd Hn; [reflexivity|].
  cbn [forallb] in Hd, Hn.
  apply andb_prop in Hd as [Hx Hd]. apply andb_prop in Hn as [Hnx Hn].
  destruct x as [| | | | | |e]; try discriminate.
  cbn [app scan_statistics]. rewrite !py_get_dict, bind_Ok.
  cbn [statistic_named] in Hnx. unfold dict_get in Hnx.
  destruct (py_eq_str _ s); [discriminate|]. now apply IH.
Qed.

(** X4: the first entry named [s] decides the statistic: entries after it
    are never looked at, whatever they are. *)
Theorem extract_statistic_value_first_match_wins d before e after s :
  lookup_key "statistics" d = Some (JList (before ++ JDict e :: after)) ->
  forallb is_dict before = true ->
  forallb (fun x => negb (statistic_named s x)) before = true ->
  statistic_named s (JDict e) = true ->
  _extract_statistic_value (JDict d) s = Ok (dict_get "value" e).
Proof.
  intros Hl Hd Hn He. unfold _extract_statistic_value.
  rewrite py_get_dict, Hl, bind_Ok. cbn [py_iter]. rewrite bind_Ok.
  rewrite (scan_statistics_skip before _ s Hd Hn).
  cbn [scan_statistics]. rewrite !py_get_dict, bind_Ok.
  cbn [statistic_named] in He. unfold dict_get in He |- *. now rewrite He.
Qed.

Lemma extract_statistic_value_first_match_wins_witness :
  _extract_statistic_value
    (JDict [("statistics",
             JList ([JDict [("statisticName", JStr "install"); ("value", JInt 1)]]
                    ++ JDict [("statisticName", JStr "ratingcount"); ("value", JInt 7)]
                    :: [JInt 0; JNull;
                        JDict [("statisticName", JStr "ratingcount");
                               ("value", JInt 9)]]))])
    "ratingcount"
  = Ok (dict_get "value" [("statisticName", JStr "ratingcount"); ("value", JInt 7)]).
Proof.
  apply (extract_statistic_value_first_match_wins _
           [JDict [("statisticName", JStr "install"); ("value", JInt 1)]]
           [("statisticName", JStr "ratingcount"); ("value", JInt 7)]
           [JInt 0; JNull;
            JDict [("statisticName", JStr "ratingcount"); ("value", JInt 9)]]);
    reflexivity.
Defined.

Lemma scan_statistics_raise stats s : forall e,
  scan_statistics stats s = Raise e -> e = AttributeError.
Proof.
  induction stats as [|stat rest IH]; intros e H; [discriminate|].
  cbn [scan_statistics] in H.
  destruct (py_get stat "statisticName" JNull) as [name|e'] eqn:En.
  - rewrite bind_Ok in H. destruct (py_eq_str name s).
    + now apply (py_get_raise stat "value" JNull).
    + now apply IH.
  - rewrite bind_Raise in H. injection H as <-.
    now apply (py_get_raise stat "statisticName" JNull).
Qed.

Lemma extract_statistic_value_raise r s e :
  _extract_statistic_value r s = Raise e -> e = AttributeError \/ e = TypeError.
Proof.
  unfold _extract_statistic_value. intros H.
  destruct (py_get r "statistics" (JList [])) as [v|e'] eqn:Eg.
  - rewrite bind_Ok in H. destruct (py_iter v) as [stats|e'] eqn:Ei.
    + rewrite bind_Ok in H. left. now apply (scan_statistics_raise stats s).
    + rewrite bind_Raise in H. injection H as <-. right.
      destruct v; cbn [py_iter] in Ei; try discriminate; now injection Ei as <-.
  - rewrite bind_Raise in H. injection H as <-. left.
    now apply (py_get_raise r "statistics" (JList [])).
Qed.

Lemma process_field_raise r path e :
  process_field r path = Raise e -> e = AttributeError \/ e = TypeError.
Proof.
  unfold process_field. destruct (startswith path "statistics_") eqn:Es.
  - destruct (startswith_append _ _ Es) as [rest ->].
    rewrite statistics_path_split, bind_Ok. apply extract_statistic_value_raise.
  - intros H. left.
    destruct (_extract_nested_value r path) as [v|e'] eqn:Ev.
    + rewrite bind_Ok in H.
      destruct (is_date_path path && py_truthy v); [|discriminate].
      destruct v; cbn [py_split_method] in H;
        try (rewrite bind_Raise in H; now injection H as <-).
      rewrite bind_Ok, py_split_head, bind_Ok in H. discriminate.
    + rewrite bind_Raise in H. injection H as <-.
      now apply (extract_keys_raise _ _ _ Ev).
Qed.

Lemma process_fields_raise r paths : forall e,
  process_fields r paths = Raise e ->
  exists path, In path paths /\ process_field r path = Raise e.
Proof.
  induction paths as [|path rest IH]; intros e H; [discriminate|].
  cbn [process_fields] in H.
  destruct (process_field r path) as [v|e'] eqn:Ev.
  - rewrite bind_Ok in H. destruct (process_fields r rest) as [vs|e''] eqn:Evs.
    + discriminate.
    + rewrite bind_Raise in H. injection H as <-.
      destruct (IH e'' eq_refl) as (p & Hp & Hr). exists p. split; [now right|exact Hr].
  - rewrite bind_Raise in H. injection H as <-. exists path. split; [now left|exact Ev].
Qed.

(** X5: whatever the record and whatever the path, the only exceptions
    that leave the flattener are [AttributeError] and [TypeError]: the
    indexings [split('_')[1]] and [split('T')[0]] never go out of
    range. *)
Theorem flatten_raises_attribute_or_type_error :
  (forall r path e,
     process_field r path = Raise e -> e = AttributeError \/ e = TypeError)
  /\ (forall r e,
        _process_extension r = Raise e -> e = AttributeError \/ e = TypeError).
Proof.
  split.
  - apply process_field_raise.
  - intros r e H. apply process_fields_raise in H as (path & _ & H).
    now apply (process_field_raise r path).
Qed.

Lemma flatten_raises_attribute_or_type_error_witness :
  _process_extension (JDict [("statistics", JInt 3)]) = Raise TypeError
  /\ (TypeError = AttributeError \/ TypeError = TypeError).
Proof.
  split; [reflexivity|].
  destruct flatten_raises_attribute_or_type_error as [_ H].
  apply (H (JDict [("statistics", JInt 3)]) TypeError). reflexivity.
Defined.

Lemma is_ok_process_fields r paths :
  is_ok (process_fields r paths)
  = forallb (fun path => is_ok (process_field r path)) paths.
Proof.
  induction paths as [|path rest IH]; [reflexivity|].
  cbn [process_fields forallb]. rewrite <- IH.
  destruct (process_field r path); [|reflexivity].
  rewrite bind_Ok. now destruct (process_fields r rest).
Qed.

Lemma is_ok_scan_statistics stats s :
  is_ok (scan_statistics stats s) = scannable s stats.
Proof.
  induction stats as [|stat rest IH]; [reflexivity|].
  destruct stat as [| | | | | |e]; try reflexivity.
  cbn [scan_statistics scannable]. rewrite !py_get_dict, bind_Ok.
  unfold dict_get. destruct (py_eq_str _ s); [reflexivity | exact IH].
Qed.

Lemma is_ok_extract_statistic_value d s :
  is_ok (_extract_statistic_value (JDict d) s) = statistics_ok d s.
Proof.
  unfold _extract_statistic_value, statistics_ok. rewrite py_get_dict.
  destruct (lookup_key "statistics" d) as [v|]; [|reflexivity].
  rewrite bind_Ok. destruct (py_iter v) as [stats|e]; [|reflexivity].
  rewrite bind_Ok. apply is_ok_scan_statistics.
Qed.

Lemma is_ok_publisher_path d k :
  is_ok (extract_keys (JDict d) ["publisher"; k])
  = match lookup_key "publisher" d with
    | None | Some JNull | Some (JDict _) => true
    | Some _ => false
    end.
Proof.
  rewrite extract_keys_dict.
  destruct (lookup_key "publisher" d) as [p|]; [|reflexivity].
  destruct p; try reflexivity. now rewrite extract_one_key.
Qed.

Lemma is_ok_date_field d path :
  is_date_path path = true ->
  is_ok (process_field (JDict d) path) = date_value_ok (dict_get path d).
Proof.
  intros H. rewrite (process_field_date d path H). unfold date_value_ok.
  destruct (py_truthy (dict_get path d)) eqn:Et; [|reflexivity].
  destruct (dict_get path d); try reflexivity.
  cbn [py_split_method]. now rewrite bind_Ok, py_split_head, bind_Ok.
Qed.

Lemma is_ok_single_key d path :
  startswith path "statistics_" = false ->
  is_date_path path = false ->
  py_split "_" path = [path] ->
  is_ok (process_field (JDict d) path) = true.
Proof.
  intros Hs Hd Hp. rewrite (process_field_nested _ _ Hs Hd).
  unfold _extract_nested_value. now rewrite Hp, extract_one_key.
Qed.

(** X6: [_process_extension] returns a row exactly for the mappings whose
    [publisher] is absent, [None] or a mapping, whose two dates are falsy
    or strings, and whose statistics can be scanned for each of the six
    statistic names without meeting an entry that is not a mapping; for
    every other value it raises. *)
Theorem flatten_returns_iff_flattens (r : json) :
  is_ok (_process_extension r) = flattens r.
Proof.
  unfold _process_extension. rewrite is_ok_process_fields.
  destruct r as [| | | | | |d]; try reflexivity.
  change FIELD_MAPPING_values with
    ["publisher_publisherId"; "publisher_publisherName"; "publisher_displayName";
     "extensionId"; "extensionName"; "displayName"; "lastUpdated"; "publishedDate";
     "statistics_install"; "statistics_averagerating"; "statistics_ratingcount";
     "statistics_trendingdaily"; "statistics_trendingmonthly";
     "statistics_downloadCount"; "categories"; "tags"; "pricing"; "hasIcon"].
  cbn [forallb].
  rewrite !(process_field_nested (JDict d) "publisher_publisherId") by reflexivity.
  rewrite !(process_field_nested (JDict d) "publisher_publisherName") by reflexivity.
  rewrite !(process_field_nested (JDict d) "publisher_displayName") by reflexivity.
  change (_extract_nested_value (JDict d) "publisher_publisherId")
    with (extract_keys (JDict d) ["publisher"; "publisherId"]).
  change (_extract_nested_value (JDict d) "publisher_publisherName")
    with (extract_keys (JDict d) ["publisher"; "publisherName"]).
  change (_extract_nested_value (JDict d) "publisher_displayName")
    with (extract_keys (JDict d) ["publisher"; "displayName"]).
  rewrite !is_ok_publisher_path.
  rewrite (is_ok_single_key d "extensionId"), (is_ok_single_key d "extensionName"),
    (is_ok_single_key d "displayName"), (is_ok_single_key d "categories"),
    (is_ok_single_key d "tags"), (is_ok_single_key d "pricing"),
    (is_ok_single_key d "hasIcon") by reflexivity.
  rewrite (is_ok_date_field d "lastUpdated"), (is_ok_date_field d "publishedDate")
    by reflexivity.
  change (process_field (JDict d) "statistics_install")
    with (_extract_statistic_value (JDict d) "install").
  change (process_field (JDict d) "statistics_averagerating")
    with (_extract_statistic_value (JDict d) "averagerating").
  change (process_field (JDict d) "statistics_ratingcount")
    with (_extract_statistic_value (JDict d) "ratingcount").
  change (process_field (JDict d) "statistics_trendingdaily")
    with (_extract_statistic_value (JDict d) "trendingdaily").
  change (process_field (JDict d) "statistics_trendingmonthly")
    with (_extract_statistic_value (JDict d) "trendingmonthly").
  change (process_field (JDict d) "statistics_downloadCount")
    with (_extract_statistic_value (JDict d) "downloadCount").
  rewrite !is_ok_extract_statistic_value.
  unfold flattens, statistic_names. cbn [forallb].
  destruct (match lookup_key "publisher" d with
            | None | Some JNull | Some (JDict _) => true
            | Some _ => false
            end);
    destruct (date_value_ok (dict_get "lastUpdated" d));
    destruct (date_value_ok (dict_get "publishedDate" d));
    destruct (statistics_ok d "install");
    destruct (statistics_ok d "averagerating");
    destruct (statistics_ok d "ratingcount");
    destruct (statistics_ok d "trendingdaily");
    destruct (statistics_ok d "trendingmonthly");
    destruct (statistics_ok d "downloadCount"); reflexivity.
Qed.

(** Six mappings, one for each statistic, may be followed by anything. *)
Example flattens_with_garbage_after_matches :
  is_ok (_process_extension
           (JDict [("statistics",
                    JList [JDict [("statisticName", JStr "install")];
                           JDict [("statisticName", JStr "averagerating")];
                           JDict [("statisticName", JStr "ratingcount")];
                           JDict [("statisticName", JStr "trendingdaily")];
                           JDict [("statisticName", JStr "trendingmonthly")];
                           JDict [("statisticName", JStr "downloadCount")];
                           JInt 0])]))
  = true.
Proof. reflexivity. Qed.

(** *** Keys the schema does not read *)

Lemma extract_keys_pop d k key rest :
  key <> k ->
  extract_keys (JDict (dict_pop k d)) (key :: rest)
  = extract_keys (JDict d) (key :: rest).
Proof.
  intros H. now rewrite !extract_keys_dict, (lookup_key_dict_pop_other k key d H).
Qed.

Lemma extract_statistic_value_pop d k s :
  k <> "statistics" ->
  _extract_statistic_value (JDict (dict_pop k d)) s
  = _extract_statistic_value (JDict d) s.
Proof.
  intros H. unfold _extract_statistic_value. rewrite !py_get_dict.
  rewrite (lookup_key_dict_pop_other k "statistics" d); [reflexivity|congruence].
Qed.

Lemma process_field_pop d k path :
  (if startswith path "statistics_" then k <> "statistics"
   else hd_error (py_split "_" path) <> Some k) ->
  process_field (JDict (dict_pop k d)) path = process_field (JDict d) path.
Proof.
  unfold process_field. destruct (startswith path "statistics_"); intros H.
  - destruct (list_index (py_split "_" path) 1) as [s|e]; [|reflexivity].
    rewrite !bind_Ok. now apply extract_statistic_value_pop.
  - unfold _extract_nested_value, py_split in *.
    destruct (split_go_head "_" path EmptyString) as [tl Htl].
    rewrite Htl in *. rewrite extract_keys_pop; [reflexivity|].
    intros Heq. apply H. cbn [hd_error]. now rewrite Heq.
Qed.

Lemma process_fields_ext r1 r2 paths :
  (forall path, In path paths -> process_field r1 path = process_field r2 path) ->
  process_fields r1 paths = process_fields r2 paths.
Proof.
  induction paths as [|path rest IH]; intros H; [reflexivity|].
  cbn [process_fields]. rewrite (H path) by now left.
  rewrite IH; [reflexivity|]. intros p Hp. apply H. now right.
Qed.

(** X7: the row, or the exception, of a record depends only on the eleven
    top-level keys the schema reads: removing any other key changes
    nothing.  In particular the [versions] entry the crawler strips
    before saving is never missed by the flattener. *)
Theorem flatten_ignores_unread_keys :
  (forall k d,
     ~ In k read_keys ->
     _process_extension (JDict (dict_pop k d)) = _process_extension (JDict d))
  /\ (forall r, _process_extension (strip_versions r) = _process_extension r).
Proof.
  assert (Hgen : forall k d, ~ In k read_keys ->
            _process_extension (JDict (dict_pop k d)) = _process_extension (JDict d)).
  { intros k d Hk. unfold _process_extension. apply process_fields_ext.
    intros path Hin. apply process_field_pop.
    unfold FIELD_MAPPING_values, FIELD_MAPPING in Hin. cbn [map snd] in Hin.
    repeat (destruct Hin as [<-|Hin];
            [vm_compute; intros Heq;
             first [ injection Heq as <- | subst k ];
             apply Hk; unfold read_keys; simpl; tauto |]).
    destruct Hin. }
  split; [exact Hgen|].
  intros r. destruct r; try reflexivity.
  apply Hgen. unfold read_keys. simpl.
  intros H. repeat (destruct H as [H|H]; [discriminate H|]). exact H.
Qed.

Lemma flatten_ignores_unread_keys_witness :
  _process_extension (JDict (dict_pop "flags" [("extensionName", JStr "a");
                                                 ("flags", JStr "validated")]))
  = _process_extension (JDict [("extensionName", JStr "a");
                               ("flags", JStr "validated")]).
Proof.
  destruct flatten_ignores_unread_keys as [H _].
  apply (H "flags"). unfold read_keys. simpl.
  intros Hin. repeat (destruct Hin as [Hin|Hin]; [discriminate Hin|]). exact Hin.
Defined.

(** *** Dates *)

Lemma prefix_before_prefix c s :
  exists rest, s = (prefix_before c s ++ rest)%string.
Proof.
  induction s as [|a s IH].
  - now exists EmptyString.
  - cbn [prefix_before]. destruct (Ascii.eqb a c).
    + now exists (String a s).
    + destruct IH as [rest IH]. exists rest.
      change (String a s = String a (prefix_before c s ++ rest)%string).
      now rewrite <- IH.
Qed.

Lemma prefix_before_clean c s : contains_char c (prefix_before c s) = false.
Proof.
  induction s as [|a s IH]; [reflexivity|].
  cbn [prefix_before]. destruct (Ascii.eqb a c) eqn:E; [reflexivity|].
  cbn [contains_char]. now rewrite E, IH.
Qed.

Lemma prefix_before_whole c s :
  contains_char c s = false -> prefix_before c s = s.
Proof.
  induction s as [|a s IH]; [reflexivity|].
  cbn [contains_char prefix_before]. intros H.
  apply orb_false_elim in H as [Ha Hs]. now rewrite Ha, (IH Hs).
Qed.

(** X8: on a date path, the value written for a string is a prefix of the
    string and holds no [T]; a string without [T] is written as it is,
    so that flattening a date that was flattened before changes
    nothing. *)
Theorem date_column_is_prefix_without_T d path s :
  is_date_path path = true ->
  dict_get path d = JStr s ->
  exists out rest,
    process_field (JDict d) path = Ok (JStr out)
    /\ s = (out ++ rest)%string
    /\ contains_char "T" out = false
    /\ (contains_char "T" s = false -> out = s)
    /\ process_field (JDict [(path, JStr out)]) path = Ok (JStr out).
Proof.
  intros Hp Hs. destruct (prefix_before_prefix "T" s) as [rest Hrest].
  exists (prefix_before "T" s), rest.
  split; [now apply process_field_date_string|]. split; [exact Hrest|].
  split; [apply prefix_before_clean|]. split; [apply prefix_before_whole|].
  rewrite (process_field_date_string [(path, JStr (prefix_before "T" s))] path
             (prefix_before "T" s) Hp).
  - now rewrite (prefix_before_whole "T" _ (prefix_before_clean "T" s)).
  - unfold dict_get. cbn [lookup_key]. now rewrite String.eqb_refl.
Qed.

Lemma date_column_is_prefix_without_T_witness :
  exists out rest,
    process_field (JDict [("lastUpdated", JStr "2024-02-29T00:00:00")]) "lastUpdated"
    = Ok (JStr out)
    /\ "2024-02-29T00:00:00" = (out ++ rest)%string
    /\ contains_char "T" out = false
    /\ (contains_char "T" "2024-02-29T00:00:00" = false -> out = "2024-02-29T00:00:00")
    /\ process_field (JDict [("lastUpdated", JStr out)]) "lastUpdated" = Ok (JStr out).
Proof.
  apply (date_column_is_prefix_without_T
           [("lastUpdated", JStr "2024-02-29T00:00:00")] "lastUpdated"
           "2024-02-29T00:00:00"); reflexivity.
Defined.

(** ** The crawler, beyond well-formed pages *)

Lemma fetch_answer_body server base page code body :
  server (set_pageNumber page base) = Answer code body ->
  error_status code = false ->
  fetch server base page
  = match
      (results ← py_get body "results" (JList [JDict []]);
       first ← py_index0 results;
       py_get first "extensions" (JList []))
    with
    | Ok extensions => Ok extensions
    | Raise RequestException | Raise KeyError | Raise IndexError => Ok JNull
    | Raise e => Raise e
    end.
Proof.
  intros Ha Hc. unfold fetch, _make_request, request_page, requests_post.
  cbn [payload]. rewrite Ha, bind_Ok. cbn [raise_for_status].
  unfold error_status in Hc. rewrite Hc, bind_Ok.
  cbn [response_json]. rewrite bind_Ok.
  destruct (results ← py_get body "results" (JList [JDict []]);
            first ← py_index0 results;
            py_get first "extensions" (JList [])) as [v|e]; [reflexivity|].
  destruct e; reflexivity.
Qed.

Lemma fetch_transport server base page :
  match server (set_pageNumber page base) with
  | Answer code _ => error_status code = true
  | _ => True
  end ->
  fetch server base page = Ok JNull.
Proof.
  unfold fetch, _make_request, request_page, requests_post. cbn [payload].
  destruct (server (set_pageNumber page base)) as [| |code body]; intros H;
    try reflexivity.
  rewrite bind_Ok. cbn [raise_for_status]. unfold error_status in H. now rewrite H.
Qed.



(** *** [_save_extensions] on any value *)

Lemma pop_versions_raise items : forall e,
  pop_versions items = Raise e -> e = AttributeError \/ e = TypeError.
Proof.
  induction items as [|x items IH]; intros e H; [discriminate|].
  cbn [pop_versions] in H. destruct (py_pop x "versions") as [x'|e'] eqn:Ex.
  - rewrite bind_Ok in H. destruct (pop_versions items) as [items'|e''].
    + discriminate.
    + rewrite bind_Raise in H. injection H as <-. now apply IH.
  - rewrite bind_Raise in H. injection H as <-.
    destruct x; cbn [py_pop] in Ex; try discriminate;
      injection Ex as <-; auto.
Qed.

Lemma is_ok_pop_versions items :
  is_ok (pop_versions items) = forallb is_dict items.
Proof.
  induction items as [|x items IH]; [reflexivity|].
  cbn [pop_versions forallb]. rewrite <- IH.
  destruct x; try reflexivity.
  cbn [py_pop is_dict]. rewrite bind_Ok. now destruct (pop_versions items).
Qed.

Lemma save_extensions_unfold disk extensions page w :
  _save_extensions disk extensions page w
  = (items ← py_iter extensions;
     items' ← pop_versions items;
     Ok (with_items extensions items',
         {| payload := payload w;
            files := snd (write_snapshot (disk page) page
                            (with_items extensions items') (files w));
            save_calls := (save_calls w ++ [page])%list |})).
Proof.
  unfold _save_extensions.
  destruct (py_iter extensions) as [items|e]; [|reflexivity].
  rewrite !bind_Ok. destruct (pop_versions items) as [items'|e]; [|reflexivity].
  rewrite !bind_Ok. unfold write_snapshot. destruct (disk page); reflexivity.
Qed.

(** X10: no I/O error leaves [_save_extensions]: whatever the disk does,
    the call raises only [AttributeError] or [TypeError], and for a list
    it returns exactly when every item is a mapping. *)
Theorem save_extensions_returns_iff_mappings disk extensions page w :
  (forall e, _save_extensions disk extensions page w = Raise e ->
             e = AttributeError \/ e = TypeError)
  /\ (forall recs, extensions = JList recs ->
        is_ok (_save_extensions disk extensions page w) = forallb is_dict recs).
Proof.
  rewrite save_extensions_unfold. split.
  - intros e H. destruct (py_iter extensions) as [items|e'] eqn:Ei.
    + rewrite bind_Ok in H. destruct (pop_versions items) as [items'|e''] eqn:Ep.
      * discriminate.
      * rewrite bind_Raise in H. injection H as <-.
        now apply (pop_versions_raise items).
    + rewrite bind_Raise in H. injection H as <-. right.
      destruct extensions; cbn [py_iter] in Ei; try discriminate;
        now injection Ei as <-.
  - intros recs ->. cbn [py_iter]. rewrite bind_Ok, <- is_ok_pop_versions.
    now destruct (pop_versions recs).
Qed.

Lemma save_extensions_returns_iff_mappings_witness :
  _save_extensions failing_disk (JList [JList []]) 1 initial_world = Raise TypeError
  /\ (TypeError = AttributeError \/ TypeError = TypeError)
  /\ is_ok (_save_extensions failing_disk (JList (sample_recs 1)) 1 initial_world)
     = forallb is_dict (sample_recs 1).
Proof.
  split; [reflexivity|].
  destruct (save_extensions_returns_iff_mappings failing_disk (JList [JList []]) 1
              initial_world) as [Hraise _].
  split; [apply (Hraise TypeError); reflexivity|].
  destruct (save_extensions_returns_iff_mappings failing_disk
              (JList (sample_recs 1)) 1 initial_world) as [_ Hok].
  now apply Hok.
Defined.

Lemma dict_pop_twice k d : dict_pop k (dict_pop k d) = dict_pop k d.
Proof.
  unfold dict_pop. induction d as [|[k' v] d IH]; [reflexivity|].
  cbn [List.filter fst]. destruct (negb (String.eqb k' k)) eqn:E; [|exact IH].
  cbn [List.filter fst]. now rewrite E, IH.
Qed.

Lemma pop_versions_again items : forall items',
  pop_versions items = Ok items' -> pop_versions items' = Ok items'.
Proof.
  induction items as [|x items IH]; intros items' H.
  - injection H as <-. reflexivity.
  - cbn [pop_versions] in H. destruct (py_pop x "versions") as [x'|e] eqn:Ex;
      [|discriminate].
    rewrite bind_Ok in H. destruct (pop_versions items) as [rest|e] eqn:Er;
      [|discriminate].
    rewrite bind_Ok in H. injection H as <-.
    destruct x; cbn [py_pop] in Ex; try discriminate. injection Ex as <-.
    cbn [pop_versions py_pop]. rewrite dict_pop_twice, bind_Ok.
    now rewrite (IH rest eq_refl), bind_Ok.
Qed.

Lemma py_iter_with_items extensions items items' :
  py_iter extensions = Ok items ->
  pop_versions items = Ok items' ->
  py_iter (with_items extensions items') = Ok items'.
Proof.
  destruct extensions as [| | | |s|l|entries]; cbn [py_iter with_items];
    try discriminate.
  - intros H. injection H as <-. destruct s as [|c s].
    + intros H. now injection H as <-.
    + discriminate.
  - reflexivity.
  - intros H. injection H as <-. destruct entries as [|[k v] entries].
    + intros H. now injection H as <-.
    + discriminate.
Qed.

(** X11: saving what a save returned is a repetition: the records come
    back as they are, and a write that succeeds leaves the directory as
    the first save left it. *)
Theorem save_extensions_again disk extensions page w extensions' w' :
  _save_extensions disk extensions page w = Ok (extensions', w') ->
  exists w'',
    _save_extensions disk extensions' page w' = Ok (extensions', w'')
    /\ payload w'' = payload w
    /\ (disk page = Written -> files w'' = files w').
Proof.
  rewrite !save_extensions_unfold. intros H.
  destruct (py_iter extensions) as [items|e] eqn:Ei; [|discriminate].
  rewrite bind_Ok in H.
  destruct (pop_versions items) as [items'|e] eqn:Ep; [|discriminate].
  rewrite bind_Ok in H. injection H as <- <-.
  rewrite (py_iter_with_items _ _ _ Ei Ep), bind_Ok.
  rewrite (pop_versions_again _ _ Ep), bind_Ok.
  assert (Hsame : with_items (with_items extensions items') items'
                  = with_items extensions items') by now destruct extensions.
  rewrite Hsame. eexists. split; [reflexivity|]. cbn [payload files].
  split; [reflexivity|]. intros ->. cbn [write_snapshot snd].
  apply insert_insert_eq.
Qed.

Lemma save_extensions_again_witness :
  exists ext' w' w'',
    _save_extensions good_disk (JList (sample_recs 1)) 1 initial_world = Ok (ext', w')
    /\ _save_extensions good_disk ext' 1 w' = Ok (ext', w'')
    /\ payload w'' = payload initial_world
    /\ (good_disk 1 = Written -> files w'' = files w').
Proof.
  destruct (_save_extensions good_disk (JList (sample_recs 1)) 1 initial_world)
    as [[ext' w']|e] eqn:E.
  - exists ext', w'.
    destruct (save_extensions_again good_disk (JList (sample_recs 1)) 1
                initial_world ext' w' E) as (w'' & H).
    exists w''. split; [reflexivity | exact H].
  - exfalso. vm_compute in E. discriminate E.
Defined.

(** *** What a crawl that returns has seen *)

Lemma save_extensions_ok_inv disk v page w v' w' :
  py_truthy v = true ->
  _save_extensions disk v page w = Ok (v', w') ->
  exists records, v = JList records /\ records <> []
                  /\ forallb is_dict records = true.
Proof.
  intros Ht H.
  assert (Hok : is_ok (_save_extensions disk v page w) = true) by now rewrite H.
  destruct v as [| | | |s|records|entries];
    try (rewrite save_extensions_unfold in H; discriminate H).
  - destruct s as [|c s]; [discriminate Ht|].
    rewrite save_extensions_unfold in H. discriminate H.
  - exists records. split; [reflexivity|]. split.
    + intros ->. discriminate Ht.
    + rewrite save_extensions_unfold in Hok. cbn [py_iter] in Hok.
      rewrite bind_Ok in Hok. rewrite <- is_ok_pop_versions.
      now destruct (pop_versions records).
  - destruct entries as [|[k x] entries]; [discriminate Ht|].
    rewrite save_extensions_unfold in H. discriminate H.
Qed.

Lemma recs_of_fetch server base p records :
  fetch server base p = Ok (JList records) -> recs_of server base p = records.
Proof. unfold recs_of. now intros ->. Qed.

Lemma crawl_loop_inv server disk base pages : forall total0 w0 total w',
  (forall p, fetch server (payload w0) p = fetch server base p) ->
  crawl_loop server disk pages total0 w0 = Ok (total, w') ->
  exists done rest,
    pages = (done ++ rest)%list
    /\ (forall p, p ∈ done -> page_yields server base (recs_of server base) p)
    /\ match rest with
       | [] => w' = after_pages disk (recs_of server base) done w0
       | q :: _ =>
           (exists v, fetch server base q = Ok v /\ py_truthy v = false)
           /\ w' = paged q (after_pages disk (recs_of server base) done w0)
       end
    /\ total = total0 + page_counts (recs_of server base) done.
Proof.
  induction pages as [|page pages IH]; intros total0 w0 total w' Hbase H.
  - cbn [crawl_loop] in H. injection H as <- <-.
    exists [], []. split; [reflexivity|]. split; [|split; [reflexivity|]].
    + intros p Hp. now apply elem_of_nil in Hp.
    + unfold page_counts. cbn [fold_right]. lia.
  - pose proof H as Hrun. cbn [crawl_loop] in H.
    rewrite make_request_fetch, Hbase in H.
    destruct (fetch server base page) as [v|e] eqn:Ef; [|discriminate].
    rewrite !bind_Ok in H. destruct (py_truthy v) eqn:Et; cbn [negb] in H.
    + destruct (py_len v) as [n|e] eqn:El; [|discriminate].
      rewrite bind_Ok in H.
      destruct (_save_extensions disk v page (paged page w0)) as [[v' w1]|e] eqn:Es;
        [|discriminate].
      destruct (save_extensions_ok_inv _ _ _ _ _ _ Et Es)
        as (records & -> & Hne & Hd).
      pose proof (recs_of_fetch server base page records Ef) as Hrecs.
      assert (Hy : page_yields server (payload w0) (recs_of server base) page).
      { unfold page_yields. rewrite Hbase, Hrecs. auto. }
      rewrite (crawl_loop_page server disk (recs_of server base) page pages
                 total0 w0 Hy) in Hrun.
      apply IH in Hrun as (done & rest & -> & Hdone & Hrest & ->).
      * exists (page :: done), rest. split; [reflexivity|]. split; [|split].
        -- intros p Hp. apply elem_of_cons in Hp as [->|Hp]; [|now apply Hdone].
           unfold page_yields. rewrite Hrecs. auto.
        -- exact Hrest.
        -- unfold page_counts. cbn [fold_right]. lia.
      * intros p. cbn [after_page payload]. rewrite fetch_set_pageNumber.
        apply Hbase.
    + injection H as <- <-. exists [], (page :: pages).
      split; [reflexivity|]. split; [|split].
      * intros p Hp. now apply elem_of_nil in Hp.
      * split; [now exists v | reflexivity].
      * unfold page_counts. cbn [fold_right]. lia.
Qed.

Lemma py_range_prefix done : forall a b rest,
  py_range a b = (done ++ rest)%list ->
  done = py_range a (a + Z.of_nat (List.length done))
  /\ rest = py_range (a + Z.of_nat (List.length done)) b
  /\ (a + Z.of_nat (List.length done) <= Z.max a b).
Proof.
  induction done as [|x done IH]; intros a b rest H.
  - cbn [List.length app] in *. rewrite Z.add_0_r.
    rewrite py_range_nil by lia. split; [reflexivity|]. split; [now rewrite H|lia].
  - destruct (Z_lt_le_dec a b) as [Hlt|Hge].
    + rewrite py_range_cons in H by lia. cbn [app] in H.
      injection H as <- H. apply IH in H as (Hd & Hr & Hle).
      cbn [List.length]. rewrite Nat2Z.inj_succ.
      replace (a + Z.succ (Z.of_nat (List.length done)))
        with (a + 1 + Z.of_nat (List.length done)) by lia.
      split; [|split; [exact Hr | lia]].
      rewrite (py_range_cons a) by lia. now rewrite <- Hd.
    + rewrite py_range_nil in H by lia. discriminate.
Qed.

Lemma page_counts_ge server base recs pages :
  (forall p, p ∈ pages -> page_yields server base recs p) ->
  Z.of_nat (List.length pages) <= page_counts recs pages.
Proof.
  induction pages as [|page pages IH]; intros H; [reflexivity|].
  unfold page_counts in *. cbn [fold_right List.length].
  destruct (H page) as (_ & Hne & _); [now left|].
  assert (Hrest : forall p, p ∈ pages -> page_yields server base recs p)
    by (intros p Hp; apply H; now right).
  specialize (IH Hrest).
  destruct (recs page) as [|r l]; [congruence|]. cbn [List.length]. lia.
Qed.

(** X12: a crawl that returns has stopped after some [k] pages, not more
    than [max_pages]: each of the pages [1..k] was fetched as a non-empty
    list of mappings, page [k+1], if the cap allowed it, as something
    falsy; the total is the sum of the [k] list lengths and at least [k],
    and [_save_extensions] was called for the pages [1..k] in order and
    for nothing else.  Any other sequence of pages makes [crawl] raise. *)
Theorem crawl_returns_inv server disk max_pages w total w' :
  crawl server disk max_pages w = Ok (total, w') ->
  exists k,
    0 <= k <= Z.max 0 max_pages
    /\ (forall p, 1 <= p <= k ->
          page_yields server (payload w) (recs_of server (payload w)) p)
    /\ (k < max_pages ->
        exists v, fetch server (payload w) (k + 1) = Ok v /\ py_truthy v = false)
    /\ total = page_counts (recs_of server (payload w)) (py_range 1 (k + 1))
    /\ k <= total
    /\ save_calls w' = (save_calls w ++ py_range 1 (k + 1))%list.
Proof.
  unfold crawl. intros H.
  apply (crawl_loop_inv server disk (payload w)) in H
    as (done & rest & Hsplit & Hdone & Hrest & Htotal); [|reflexivity].
  apply py_range_prefix in Hsplit as (Hd & Hr & Hle).
  set (k := Z.of_nat (List.length done)) in *.
  assert (Hpages : forall p, 1 <= p <= k ->
            page_yields server (payload w) (recs_of server (payload w)) p).
  { intros p Hp. apply Hdone. rewrite Hd. apply elem_of_py_range. lia. }
  exists k. split; [lia|]. split; [exact Hpages|].
  replace (k + 1) with (1 + k) by lia. rewrite <- Hd.
  split; [|split; [lia|split]].
  - intros Hlt. rewrite py_range_cons in Hr by lia. rewrite Hr in Hrest.
    destruct Hrest as [Hv _]. exact Hv.
  - pose proof (page_counts_ge _ _ _ done Hdone). lia.
  - destruct rest as [|q rest].
    + rewrite Hrest. apply after_pages_save_calls.
    + destruct Hrest as [_ ->]. cbn [paged save_calls].
      apply after_pages_save_calls.
Qed.

Lemma crawl_returns_inv_witness :
  exists total w' k,
    crawl sample_server failing_disk 100 initial_world = Ok (total, w')
    /\ 0 <= k <= Z.max 0 100
    /\ (forall p, 1 <= p <= k ->
          page_yields sample_server (payload initial_world)
            (recs_of sample_server (payload initial_world)) p)
    /\ (k < 100 ->
        exists v, fetch sample_server (payload initial_world) (k + 1) = Ok v
                  /\ py_truthy v = false)
    /\ total = page_counts (recs_of sample_server (payload initial_world))
                 (py_range 1 (k + 1))
    /\ k <= total
    /\ save_calls w' = (save_calls initial_world ++ py_range 1 (k + 1))%list.
Proof.
  destruct (crawl sample_server failing_disk 100 initial_world)
    as [[total w']|e] eqn:E.
  - destruct (crawl_returns_inv sample_server failing_disk 100 initial_world
                total w' E) as (k & H).
    exists total, w', k. split; [reflexivity | exact H].
  - exfalso. vm_compute in E. discriminate E.
Defined.

(** *** What a crawl does not depend on *)

Lemma crawl_loop_disk server d1 d2 pages : forall total w1 w2,
  payload w1 = payload w2 ->
  save_calls w1 = save_calls w2 ->
  crawl_outcome <$> crawl_loop server d1 pages total w1
  = crawl_outcome <$> crawl_loop server d2 pages total w2.
Proof.
  induction pages as [|page pages IH]; intros total w1 w2 Hp Hs.
  - cbn [crawl_loop]. unfold crawl_outcome. cbn. now rewrite Hp, Hs.
  - cbn [crawl_loop]. rewrite !make_request_fetch, Hp.
    destruct (fetch server (payload w2) page) as [v|e]; [|reflexivity].
    rewrite !bind_Ok. destruct (py_truthy v); cbn [negb].
    + destruct (py_len v) as [n|e]; [|reflexivity].
      rewrite !bind_Ok, !save_extensions_unfold.
      destruct (py_iter v) as [items|e]; [|reflexivity].
      rewrite !bind_Ok. destruct (pop_versions items) as [items'|e]; [|reflexivity].
      rewrite !bind_Ok. apply IH; cbn [payload save_calls paged].
      * now rewrite Hp.
      * now rewrite Hs.
    + unfold crawl_outcome. cbn. now rewrite Hp, Hs.
Qed.

(** X13: the disk has no say in what [crawl] returns: with any two disks
    the total, the final payload and the pages handed to
    [_save_extensions] are the same, and so is the exception when the
    crawl raises. *)
Theorem crawl_outcome_independent_of_disk server d1 d2 max_pages w :
  crawl_outcome <$> crawl server d1 max_pages w
  = crawl_outcome <$> crawl server d2 max_pages w.
Proof. unfold crawl. now apply crawl_loop_disk. Qed.

Lemma make_request_server s1 s2 page w :
  s1 (set_pageNumber page (payload w)) = s2 (set_pageNumber page (payload w)) ->
  _make_request s1 page w = _make_request s2 page w.
Proof.
  intros H. unfold _make_request, request_page, requests_post. cbn [payload].
  now rewrite H.
Qed.

Lemma fetch_server s1 s2 base page :
  s1 (set_pageNumber page base) = s2 (set_pageNumber page base) ->
  fetch s1 base page = fetch s2 base page.
Proof.
  intros H. unfold fetch.
  now rewrite (make_request_server s1 s2 page
                 {| payload := base; files := ∅; save_calls := [] |} H).
Qed.

Lemma crawl_loop_servers s1 s2 disk pages :
  (forall p pl, p ∈ pages -> pageNumber pl = p -> s1 pl = s2 pl) ->
  forall total w,
    crawl_loop s1 disk pages total w = crawl_loop s2 disk pages total w.
Proof.
  induction pages as [|page pages IH]; intros H total w; [reflexivity|].
  cbn [crawl_loop].
  rewrite (make_request_server s1 s2 page w)
    by (apply (H page); [now left | reflexivity]).
  destruct (_make_request s2 page w) as [[v w1]|e]; [|reflexivity].
  rewrite !bind_Ok. destruct (py_truthy v); [|reflexivity]. cbn [negb].
  destruct (py_len v) as [n|e]; [|reflexivity]. rewrite !bind_Ok.
  destruct (_save_extensions disk v page w1) as [[v' w2]|e]; [|reflexivity].
  rewrite !bind_Ok. apply IH. intros p pl Hp. apply H. now right.
Qed.

Lemma crawl_loop_cut server disk front : forall back total w q v,
  q ∈ front ->
  fetch server (payload w) q = Ok v ->
  py_truthy v = false ->
  crawl_loop server disk (front ++ back) total w
  = crawl_loop server disk front total w.
Proof.
  induction front as [|page front IH]; intros back total w q v Hq Hf Hv.
  - now apply elem_of_nil in Hq.
  - cbn [app crawl_loop]. rewrite !make_request_fetch.
    destruct (fetch server (payload w) page) as [x|e] eqn:Ex; [|reflexivity].
    rewrite !bind_Ok. destruct (py_truthy x) eqn:Et; [|reflexivity]. cbn [negb].
    destruct (py_len x) as [n|e]; [|reflexivity].
    rewrite !bind_Ok, !save_extensions_unfold.
    destruct (py_iter x) as [items|e]; [|reflexivity].
    rewrite !bind_Ok. destruct (pop_versions items) as [items'|e]; [|reflexivity].
    rewrite !bind_Ok.
    apply elem_of_cons in Hq as [->|Hq]; [congruence|].
    apply (IH back _ _ q v Hq); [|exact Hv].
    cbn [payload paged]. now rewrite fetch_set_pageNumber.
Qed.

(** X14: [crawl] asks for no page beyond the first falsy one and for none
    beyond [max_pages]: two servers that answer alike for the pages
    [1..k+1], where the first answers page [k+1] with something falsy,
    or for the pages [1..max_pages], give the same crawl. *)
Theorem crawl_ignores_later_pages s1 s2 disk max_pages k w :
  0 <= k ->
  (forall pl, 1 <= pageNumber pl <= Z.min (k + 1) max_pages -> s1 pl = s2 pl) ->
  (k < max_pages ->
   exists v, fetch s1 (payload w) (k + 1) = Ok v /\ py_truthy v = false) ->
  crawl s1 disk max_pages w = crawl s2 disk max_pages w.
Proof.
  intros Hk Hagree Hstop. unfold crawl.
  destruct (Z_lt_le_dec k max_pages) as [Hlt|Hge].
  - destruct (Hstop Hlt) as (v & Hf & Hv).
    rewrite (py_range_split 1 (k + 2) (max_pages + 1)) by lia.
    assert (Hin : k + 1 ∈ py_range 1 (k + 2)) by (apply elem_of_py_range; lia).
    rewrite (crawl_loop_cut s1 disk _ _ 0 w (k + 1) v Hin Hf Hv).
    rewrite (crawl_loop_cut s2 disk _ _ 0 w (k + 1) v Hin); [| |exact Hv].
    + apply crawl_loop_servers. intros p pl Hp Hpl. apply Hagree.
      apply elem_of_py_range in Hp. lia.
    + rewrite <- Hf. symmetry. apply fetch_server. apply Hagree.
      cbn [set_pageNumber pageNumber]. lia.
  - apply crawl_loop_servers. intros p pl Hp Hpl. apply Hagree.
    apply elem_of_py_range in Hp. lia.
Qed.

(** A server that answers page 3 and every later page with a thousand
    records instead of none. *)
Lemma crawl_ignores_later_pages_witness :
  crawl sample_server good_disk 100 initial_world
  = crawl (fun p => if pageNumber p <=? 3 then sample_server p
                    else Answer 200 (page_body (repeat record_bare 1000)))
      good_disk 100 initial_world.
Proof.
  apply (crawl_ignores_later_pages _ _ good_disk 100 2 initial_world).
  - lia.
  - intros pl Hpl. cbv beta.
    destruct (pageNumber pl <=? 3) eqn:E; [reflexivity|].
    apply Z.leb_gt in E. lia.
  - intros _. exists (JList []). split; reflexivity.
Defined.

(** X15: a crawl that returns has touched no file but those of the pages
    it saved: the file of any other page, also one a former crawl left
    behind a page number this crawl did not reach, is as it was. *)
Theorem crawl_keeps_other_files server disk max_pages w total w' :
  crawl server disk max_pages w = Ok (total, w') ->
  exists k,
    0 <= k <= Z.max 0 max_pages
    /\ save_calls w' = (save_calls w ++ py_range 1 (k + 1))%list
    /\ forall p, ~ 1 <= p <= k -> files w' !! p = files w !! p.
Proof.
  unfold crawl. intros H.
  apply (crawl_loop_inv server disk (payload w)) in H
    as (done & rest & Hsplit & _ & Hrest & _); [|reflexivity].
  apply py_range_prefix in Hsplit as (Hd & _ & Hle).
  set (k := Z.of_nat (List.length done)) in *.
  exists k. split; [lia|].
  replace (k + 1) with (1 + k) by lia. rewrite <- Hd.
  assert (Hw : save_calls w' = (save_calls w ++ done)%list
               /\ files w' = files (after_pages disk (recs_of server (payload w)) done w)).
  { destruct rest as [|q rest].
    - rewrite Hrest. split; [apply after_pages_save_calls | reflexivity].
    - destruct Hrest as [_ ->]. cbn [paged save_calls files].
      split; [apply after_pages_save_calls | reflexivity]. }
  destruct Hw as [Hcalls Hfiles]. split; [exact Hcalls|].
  intros p Hp. rewrite Hfiles. apply after_pages_files_other.
  rewrite Hd, elem_of_py_range. lia.
Qed.

Lemma crawl_keeps_other_files_witness :
  exists total w' k,
    crawl sample_server good_disk 100
      {| payload := _get_default_payload;
         files := {[ 7 := Complete (JList [record_bare]) ]};
         save_calls := [] |} = Ok (total, w')
    /\ 0 <= k <= Z.max 0 100
    /\ save_calls w' = ([] ++ py_range 1 (k + 1))%list
    /\ forall p, ~ 1 <= p <= k ->
         files w' !! p
         = ({[ 7 := Complete (JList [record_bare]) ]} : gmap Z snapshot) !! p.
Proof.
  destruct (crawl sample_server good_disk 100
              {| payload := _get_default_payload;
                 files := {[ 7 := Complete (JList [record_bare]) ]};
                 save_calls := [] |}) as [[total w']|e] eqn:E.
  - destruct (crawl_keeps_other_files _ _ _ _ _ _ E) as (k & H).
    exists total, w', k. split; [reflexivity | exact H].
  - exfalso. vm_compute in E. discriminate E.
Defined.

(** ** Loading the snapshots *)

Lemma load_files_items listing : forall extensions,
  forallb (fun file => is_ok (file_items file)) listing = true ->
  load_files listing extensions
  = Ok (extensions ++ concat (map items_of listing))%list.
Proof.
  induction listing as [|file rest IH]; intros extensions H.
  - cbn. now rewrite app_nil_r.
  - cbn [load_files forallb map concat] in *. unfold items_of, file_items in *.
    destruct (json_load file) as [doc|e]; [|discriminate H].
    rewrite !bind_Ok in *. destruct (py_iter doc) as [items|e]; [|discriminate H].
    rewrite !bind_Ok. cbn [is_ok andb] in H. rewrite (IH _ H).
    now rewrite <- app_assoc.
Qed.

Lemma is_ok_load_files listing extensions :
  is_ok (load_files listing extensions)
  = forallb (fun file => is_ok (file_items file)) listing.
Proof.
  revert extensions. induction listing as [|file rest IH]; intros extensions;
    [reflexivity|].
  cbn [load_files forallb]. unfold file_items.
  destruct (json_load file) as [doc|e]; [|reflexivity].
  rewrite !bind_Ok. destruct (py_iter doc) as [items|e]; [|reflexivity].
  rewrite !bind_Ok. apply IH.
Qed.

Lemma load_extensions_ok listing :
  forallb (fun file => is_ok (file_items file)) listing = true ->
  load_extensions listing = Ok (concat (map items_of listing)).
Proof.
  intros H. unfold load_extensions. now rewrite (load_files_items _ _ H).
Qed.

Lemma Permutation_concat_map {A B : Type} (f : A -> list B) (l1 l2 : list A) :
  l1 ≡ₚ l2 -> concat (map f l1) ≡ₚ concat (map f l2).
Proof.
  induction 1 as [|x l1 l2 _ IH|x y l|l1 l2 l3 _ IH1 _ IH2]; cbn [map concat].
  - reflexivity.
  - now rewrite IH.
  - rewrite !app_assoc. f_equiv. apply Permutation_app_comm.
  - now rewrite IH1.
Qed.

Lemma forallb_Permutation {A : Type} (f : A -> bool) (l1 l2 : list A) :
  l1 ≡ₚ l2 -> forallb f l1 = forallb f l2.
Proof.
  induction 1 as [|x l1 l2 _ IH|x y l|l1 l2 l3 _ IH1 _ IH2]; cbn [forallb].
  - reflexivity.
  - now rewrite IH.
  - destruct (f x), (f y); reflexivity.
  - now rewrite IH1.
Qed.

(** X16: the order in which [glob] yields the files matters neither for
    whether [load_extensions] returns nor for what it returns, up to the
    order of the records: a file that is no JSON document or whose
    document cannot be iterated makes every order raise, and otherwise
    two orders load the same records, each as often. *)
Theorem load_extensions_any_glob_order listing1 listing2 :
  listing1 ≡ₚ listing2 ->
  is_ok (load_extensions listing1) = is_ok (load_extensions listing2)
  /\ forall records1 records2,
       load_extensions listing1 = Ok records1 ->
       load_extensions listing2 = Ok records2 ->
       records1 ≡ₚ records2 /\ List.length records1 = List.length records2.
Proof.
  intros Hperm. unfold load_extensions. split.
  - rewrite !is_ok_load_files. now apply forallb_Permutation.
  - intros records1 records2 H1 H2.
    assert (Hok1 : forallb (fun file => is_ok (file_items file)) listing1 = true)
      by now rewrite <- (is_ok_load_files listing1 []), H1.
    assert (Hok2 : forallb (fun file => is_ok (file_items file)) listing2 = true)
      by now rewrite <- (is_ok_load_files listing2 []), H2.
    rewrite (load_files_items _ _ Hok1) in H1.
    rewrite (load_files_items _ _ Hok2) in H2.
    injection H1 as <-. injection H2 as <-. cbn [app].
    pose proof (Permutation_concat_map items_of _ _ Hperm) as Hp.
    split; [exact Hp | now apply Permutation_length].
Qed.

Lemma load_extensions_any_glob_order_witness :
  is_ok (load_extensions [Complete (JList (sample_recs 1)); Complete (JList (sample_recs 2))])
  = is_ok (load_extensions [Complete (JList (sample_recs 2)); Complete (JList (sample_recs 1))])
  /\ load_extensions [Partial; Complete (JList [])] = Raise ValueError.
Proof.
  split; [|reflexivity].
  apply (load_extensions_any_glob_order
           [Complete (JList (sample_recs 1)); Complete (JList (sample_recs 2))]
           [Complete (JList (sample_recs 2)); Complete (JList (sample_recs 1))]).
  apply perm_swap.
Defined.

(** ** From the crawl to the loaded records *)

Lemma directory_listing_all (fs : gmap Z snapshot) (g : Z -> snapshot) order :
  (forall p, p ∈ order -> fs !! p = Some (g p)) ->
  directory_listing fs order = map g order.
Proof.
  unfold directory_listing. induction order as [|p order IH]; intros H;
    [reflexivity|].
  cbn [omap list_omap map]. change (list_omap ?f ?l) with (omap f l).
  rewrite (H p) by now left. rewrite IH; [reflexivity|].
  intros q Hq. apply H. now right.
Qed.

Lemma length_concat_pages recs pages :
  Z.of_nat (List.length
              (concat (map (fun p => map strip_versions (recs p)) pages)))
  = page_counts recs pages.
Proof.
  induction pages as [|p pages IH]; [reflexivity|].
  unfold page_counts in *. cbn [map concat fold_right].
  rewrite length_app, length_map, Nat2Z.inj_add, IH. reflexivity.
Qed.

Lemma records_on_disk_all recs (fs : gmap Z snapshot) pages :
  (forall p, p ∈ pages ->
     fs !! p = Some (Complete (JList (map strip_versions (recs p))))) ->
  records_on_disk fs pages = page_counts recs pages.
Proof.
  induction pages as [|p pages IH]; intros H; [reflexivity|].
  unfold records_on_disk, page_counts in *. cbn [fold_right].
  rewrite (H p) by now left. cbn [snapshot_records]. rewrite length_map.
  rewrite IH; [reflexivity|]. intros q Hq. apply H. now right.
Qed.

(** X17: after a crawl into an empty directory on a disk where every
    write succeeds, the directory holds exactly the files of the pages
    [1..k], and [load_extensions], in whatever order [glob] yields these
    files, returns as many records as the crawl counted: the records the
    pages were fetched with, each without its [versions]. *)
Theorem crawl_then_load_extensions server disk recs max_pages k w0 order :
  0 <= k <= max_pages ->
  (forall p, 1 <= p <= k -> page_yields server (payload w0) recs p) ->
  (k < max_pages -> page_ends server (payload w0) (k + 1)) ->
  files w0 = ∅ ->
  (forall p, 1 <= p <= k -> disk p = Written) ->
  order ≡ₚ py_range 1 (k + 1) ->
  exists total w' records,
    crawl server disk max_pages w0 = Ok (total, w')
    /\ (forall p, is_Some (files w' !! p) <-> 1 <= p <= k)
    /\ load_extensions (directory_listing (files w') order) = Ok records
    /\ Z.of_nat (List.length records) = total
    /\ records ≡ₚ concat (map (fun p => map strip_versions (recs p))
                            (py_range 1 (k + 1)))
    /\ records_on_disk (files w') (py_range 1 (k + 1)) = total.
Proof.
  intros Hk Hgood Hend Hempty Hdisk Horder.
  destruct (crawl_run server disk recs max_pages k w0 Hk Hgood Hend)
    as (w' & Hrun & _ & Hfiles).
  set (g := fun p => Complete (JList (map strip_versions (recs p)))).
  assert (Hin : forall p, p ∈ py_range 1 (k + 1) -> files w' !! p = Some (g p)).
  { intros p Hp. rewrite Hfiles, after_pages_files_in; [|apply NoDup_seqZ|exact Hp].
    unfold written_file. rewrite Hdisk; [reflexivity|].
    apply elem_of_py_range in Hp. lia. }
  assert (Hout : forall p, ~ 1 <= p <= k -> files w' !! p = None).
  { intros p Hp. rewrite Hfiles, after_pages_files_other.
    - now rewrite Hempty, lookup_empty.
    - rewrite elem_of_py_range. lia. }
  assert (Hlist : directory_listing (files w') order = map g order).
  { apply directory_listing_all. intros p Hp. apply Hin. now rewrite <- Horder. }
  assert (Hload : load_extensions (directory_listing (files w') order)
                  = Ok (concat (map (fun p => map strip_versions (recs p)) order))).
  { rewrite Hlist, load_extensions_ok.
    - now rewrite map_map.
    - rewrite forallb_forall. intros file Hfile.
      apply in_map_iff in Hfile as (p & <- & _). reflexivity. }
  pose proof (Permutation_concat_map (fun p => map strip_versions (recs p))
                _ _ Horder) as Hperm.
  exists (page_counts recs (py_range 1 (k + 1))), w',
    (concat (map (fun p => map strip_versions (recs p)) order)).
  split; [exact Hrun|]. split; [|split; [exact Hload|split; [|split]]].
  - intros p. split.
    + intros Hsome. destruct (Z_le_dec 1 p) as [H1|H1];
        [destruct (Z_le_dec p k) as [H2|H2]; [lia|]|];
        rewrite Hout in Hsome by lia; now destruct Hsome.
    + intros Hp. rewrite Hin by (apply elem_of_py_range; lia). now eexists.
  - rewrite (Permutation_length Hperm). apply length_concat_pages.
  - exact Hperm.
  - now apply records_on_disk_all.
Qed.

Lemma crawl_then_load_extensions_witness :
  exists total w' records,
    crawl sample_server good_disk 100 initial_world = Ok (total, w')
    /\ (forall p, is_Some (files w' !! p) <-> 1 <= p <= 2)
    /\ load_extensions (directory_listing (files w') [2; 1]) = Ok records
    /\ Z.of_nat (List.length records) = total
    /\ records ≡ₚ concat (map (fun p => map strip_versions (sample_recs p))
                            (py_range 1 (2 + 1)))
    /\ records_on_disk (files w') (py_range 1 (2 + 1)) = total.
Proof.
  apply (crawl_then_load_extensions sample_server good_disk sample_recs 100 2
           initial_world [2; 1]).
  - lia.
  - exact sample_pages_yield.
  - intros _. exact sample_page_3_ends.
  - reflexivity.
  - reflexivity.
  - apply perm_swap.
Defined.

(** A file an earlier crawl left at page 7 is loaded with the new ones. *)
Example stale_snapshot_is_loaded :
  (fun r => List.length <$>
              load_extensions (directory_listing (files (snd r)) [1; 2; 7]))
    <$> crawl sample_server good_disk 100
          {| payload := _get_default_payload;
             files := {[ 7 := Complete (JList [record_bare]) ]};
             save_calls := [] |}
  = Ok (Ok 4%nat).
Proof. vm_compute. reflexivity. Qed.

(** ** Writing the text table and loading it *)

Lemma process_all_aligned extensions : forall rows,
  process_all extensions = Ok rows <->
  Forall2 (fun ext row => _process_extension ext = Ok row) extensions rows.
Proof.
  induction extensions as [|ext rest IH]; intros rows; cbn [process_all].
  - split.
    + intros H. injection H as <-. constructor.
    + intros H. inversion H. reflexivity.
  - destruct (_process_extension ext) as [row|e] eqn:Er.
    + rewrite bind_Ok. destruct (process_all rest) as [rs|e] eqn:Ers.
      * rewrite bind_Ok. split.
        -- intros H. injection H as <-. constructor; [assumption|]. now apply IH.
        -- intros H. inversion H as [|? r ? rs' Hr Hrs]; subst.
           rewrite Er in Hr. injection Hr as ->.
           apply IH in Hrs. now injection Hrs as ->.
      * rewrite bind_Raise. split; [discriminate|].
        intros H. inversion H as [|? r ? rs' Hr Hrs]; subst.
        apply IH in Hrs. discriminate.
    + rewrite bind_Raise. split; [discriminate|].
      intros H. inversion H as [|? r ? rs' Hr Hrs]; subst.
      rewrite Er in Hr. discriminate.
Qed.

Lemma process_extension_width ext row :
  _process_extension ext = Ok row ->
  List.length row = List.length FIELD_MAPPING.
Proof.
  intros H. apply process_fields_aligned in H. apply Forall2_length in H.
  rewrite <- H. unfold FIELD_MAPPING_values. now rewrite length_map.
Qed.

Section ConvertProperties.

Context {table : Type}.
Variable csv_text : list string -> list (list json) -> string.

(** X18: [convert_to_csv] never touches a database or another text file;
    when a snapshot cannot be loaded or a record cannot be flattened it
    raises before the output file is opened, so that the file is as it
    was; when it returns, the file holds the text of the schema's column
    names and of one full-width row for each loaded record, in order. *)
Theorem convert_to_csv_effect listing output_file outcome (st : store table) :
  databases (snd (convert_to_csv table csv_text listing output_file outcome st))
  = databases st
  /\ (forall f, f <> output_file ->
        text_files (snd (convert_to_csv table csv_text listing output_file outcome st))
          !! f
        = text_files st !! f)
  /\ (forall e,
        (extensions ← load_extensions listing; process_all extensions) = Raise e ->
        convert_to_csv table csv_text listing output_file outcome st = (Raise e, st))
  /\ (fst (convert_to_csv table csv_text listing output_file outcome st) = Ok tt ->
      exists extensions rows,
        load_extensions listing = Ok extensions
        /\ Forall2 (fun ext row => _process_extension ext = Ok row) extensions rows
        /\ Forall (fun row => List.length row = List.length FIELD_MAPPING) rows
        /\ text_files (snd (convert_to_csv table csv_text listing output_file
                              outcome st)) !! output_file
           = Some (csv_text FIELD_MAPPING_keys rows)).
Proof.
  unfold convert_to_csv.
  destruct (load_extensions listing) as [extensions|e] eqn:El.
  - rewrite bind_Ok. destruct (process_all extensions) as [rows|e] eqn:Ep.
    + destruct outcome; cbn [fst snd with_text databases text_files];
        (split; [reflexivity|]);
        (split; [intros f Hf; rewrite ?lookup_insert_ne by congruence; reflexivity|]);
        (split; [discriminate|]); try discriminate.
      intros _. exists extensions, rows. split; [reflexivity|].
      apply process_all_aligned in Ep. split; [exact Ep|]. split.
      * clear El. induction Ep as [|ext row exts rs Hr _ IH]; constructor.
        -- now apply (process_extension_width ext).
        -- exact IH.
      * apply lookup_insert_eq.
    + cbn [fst snd]. split; [reflexivity|]. split; [reflexivity|].
      split; [|discriminate]. intros e' H. now injection H as <-.
  - rewrite bind_Raise. cbn [fst snd]. split; [reflexivity|]. split; [reflexivity|].
    split; [|discriminate]. intros e' H. now injection H as <-.
Qed.

End ConvertProperties.

Lemma convert_to_csv_effect_witness :
  convert_to_csv (list string) (fun _ _ => "text")
    [Complete (JList [JDict [("publisher", JInt 3)]])] "vscode_extensions.csv"
    TextWritten sample_store
  = (Raise AttributeError, sample_store)
  /\ exists extensions rows,
       load_extensions [Complete (JList (sample_recs 1))] = Ok extensions
       /\ Forall2 (fun ext row => _process_extension ext = Ok row) extensions rows
       /\ Forall (fun row => List.length row = List.length FIELD_MAPPING) rows
       /\ text_files
            (snd (convert_to_csv (list string) (fun _ _ => "text")
                    [Complete (JList (sample_recs 1))] "vscode_extensions.csv"
                    TextWritten sample_store)) !! "vscode_extensions.csv"
          = Some "text".
Proof.
  split.
  - destruct (convert_to_csv_effect (fun _ _ => "text")
                [Complete (JList [JDict [("publisher", JInt 3)]])]
                "vscode_extensions.csv" TextWritten sample_store)
      as (_ & _ & Hraise & _).
    apply Hraise. reflexivity.
  - destruct (convert_to_csv_effect (fun _ _ => "text")
                [Complete (JList (sample_recs 1))]
                "vscode_extensions.csv" TextWritten sample_store)
      as (_ & _ & _ & Hok).
    apply Hok. reflexivity.
Defined.

Section MainProperties.

Context {frame table : Type}.
Variable read_csv : string -> result frame.
Variable create_table : frame -> table.
Variable insert_rows : table -> frame -> table.
Variable csv_text : list string -> list (list json) -> string.

Abbreviation export_ := (export_to_sqlite frame table read_csv create_table insert_rows).
Abbreviation main_ := (processor_main frame table read_csv create_table insert_rows csv_text).

(** X19: [export_to_sqlite] returns exactly when the text file exists and
    [read_csv] accepts it, with [FileNotFoundError] for a missing file;
    a run that returns has changed nothing but the one table: the text
    files, the other database files and the other tables of the
    database are as before. *)
Theorem export_to_sqlite_frame csv_file db_file table_name (st : store table) :
  (text_files st !! csv_file = None ->
   export_ csv_file db_file table_name st = Raise FileNotFoundError)
  /\ (forall text e,
        text_files st !! csv_file = Some text -> read_csv text = Raise e ->
        export_ csv_file db_file table_name st = Raise e)
  /\ (forall st1,
        export_ csv_file db_file table_name st = Ok st1 ->
        text_files st1 = text_files st
        /\ (forall db, db <> db_file -> databases st1 !! db = databases st !! db)
        /\ (forall other, other <> table_name ->
              (databases st1 !! db_file ≫= (fun db => db !! other))
              = (databases st !! db_file ≫= (fun db => db !! other)))).
Proof.
  split; [|split].
  - intros H. unfold export_to_sqlite, open_text. now rewrite H.
  - intros text e Ht Hr. unfold export_to_sqlite, open_text.
    now rewrite Ht, bind_Ok, Hr.
  - intros st1 H.
    destruct (export_to_sqlite_ok read_csv create_table insert_rows _ _ _ _ _ H)
      as (text & df & _ & _ & ->).
    cbn [text_files databases]. split; [reflexivity|]. split.
    + intros db Hdb. now rewrite lookup_insert_ne.
    + intros other Hother. rewrite lookup_insert_eq. unfold sqlite3_connect.
      destruct (databases st !! db_file) as [db|]; cbn.
      * now rewrite lookup_insert_ne.
      * now rewrite lookup_insert_ne, lookup_empty.
Qed.


End MainProperties.

Lemma export_to_sqlite_frame_witness :
  sample_export {| text_files := ∅; databases := databases sample_store |}
  = Raise FileNotFoundError
  /\ exists st1,
       sample_export sample_store = Ok st1
       /\ (databases st1 !! "vscode_extensions.db" ≫= (fun db => db !! "other"))
          = (databases sample_store !! "vscode_extensions.db"
               ≫= (fun db => db !! "other")).
Proof.
  split.
  - destruct (export_to_sqlite_frame lines_read_csv lines_create_table
                lines_insert_rows "vscode_extensions.csv" "vscode_extensions.db"
                "vscode_extensions"
                {| text_files := ∅; databases := databases sample_store |})
      as (Hmissing & _).
    apply Hmissing. reflexivity.
  - destruct (sample_export sample_store) as [st1|e] eqn:E.
    + exists st1. split; [reflexivity|].
      destruct (export_to_sqlite_frame lines_read_csv lines_create_table
                  lines_insert_rows "vscode_extensions.csv" "vscode_extensions.db"
                  "vscode_extensions" sample_store) as (_ & _ & Hframe).
      destruct (Hframe st1 E) as (_ & _ & Hother).
      apply Hother. discriminate.
    + exfalso. vm_compute in E. discriminate E.
Defined.


(** ** [main] of the crawler *)

Lemma set_pageNumber_static p x base :
  set_pageNumber 0 x = set_pageNumber 0 base ->
  set_pageNumber p x = set_pageNumber p base.
Proof.
  intros H. change (set_pageNumber p (set_pageNumber 0 x)
                    = set_pageNumber p (set_pageNumber 0 base)).
  now rewrite H.
Qed.

Lemma crawl_loop_requests s1 s2 disk base pages :
  (forall p, p ∈ pages ->
     s1 (set_pageNumber p base) = s2 (set_pageNumber p base)) ->
  forall total w,
    set_pageNumber 0 (payload w) = set_pageNumber 0 base ->
    crawl_loop s1 disk pages total w = crawl_loop s2 disk pages total w.
Proof.
  induction pages as [|page pages IH]; intros H total w Hw; [reflexivity|].
  cbn [crawl_loop].
  rewrite (make_request_server s1 s2 page w)
    by (rewrite (set_pageNumber_static page _ base Hw); apply H; now left).
  rewrite make_request_fetch.
  destruct (fetch s2 (payload w) page) as [v|e]; [|reflexivity].
  rewrite !bind_Ok. destruct (py_truthy v); [|reflexivity]. cbn [negb].
  destruct (py_len v) as [n|e]; [|reflexivity].
  rewrite !bind_Ok, !save_extensions_unfold.
  destruct (py_iter v) as [items|e]; [|reflexivity].
  rewrite !bind_Ok. destruct (pop_versions items) as [items'|e]; [|reflexivity].
  rewrite !bind_Ok. apply IH.
  - intros p Hp. apply H. now right.
  - cbn [payload paged]. exact Hw.
Qed.

Lemma after_pages_static disk recs pages : forall w,
  set_pageNumber 0 (payload (after_pages disk recs pages w))
  = set_pageNumber 0 (payload w).
Proof.
  induction pages as [|page pages IH]; intros w; [reflexivity|].
  now rewrite after_pages_cons, IH.
Qed.

(** X21: [main] of the crawler sends, for the pages [1..100] at most,
    the default payload with nothing but its page number changed: two
    servers that answer these hundred requests alike give the same run.
    A run that returns has called [_save_extensions] for a first stretch
    of the pages [1..100] only, and has left the filter criteria, the
    page size of 1000, the sort order and the flags of the payload as
    [_get_default_payload] set them. *)
Theorem crawler_main_requests_and_cap s1 s2 disk fs :
  (forall p, 1 <= p <= 100 ->
     s1 (set_pageNumber p _get_default_payload)
     = s2 (set_pageNumber p _get_default_payload)) ->
  crawler_main s1 disk fs = crawler_main s2 disk fs
  /\ forall total w',
       crawler_main s1 disk fs = Ok (total, w') ->
       (exists k, 0 <= k <= 100 /\ save_calls w' = py_range 1 (k + 1))
       /\ set_pageNumber 0 (payload w') = set_pageNumber 0 _get_default_payload
       /\ pageSize (payload w') = 1000.
Proof.
  intros Hagree. unfold crawler_main, crawl. split.
  - apply (crawl_loop_requests s1 s2 disk _get_default_payload); [|reflexivity].
    intros p Hp. apply Hagree. apply elem_of_py_range in Hp. lia.
  - intros total w' H.
    apply (crawl_loop_inv s1 disk _get_default_payload) in H
      as (done & rest & Hsplit & _ & Hrest & _); [|reflexivity].
    apply py_range_prefix in Hsplit as (Hd & _ & Hle).
    set (k := Z.of_nat (List.length done)) in *.
    assert (Hw : save_calls w' = done
                 /\ set_pageNumber 0 (payload w')
                    = set_pageNumber 0 _get_default_payload).
    { destruct rest as [|q rest].
      - rewrite Hrest. split.
        + now rewrite after_pages_save_calls.
        + now rewrite after_pages_static.
      - destruct Hrest as [_ ->]. cbn [paged save_calls payload]. split.
        + now rewrite after_pages_save_calls.
        + change (set_pageNumber 0 (set_pageNumber q ?x)) with (set_pageNumber 0 x).
          now rewrite after_pages_static. }
    destruct Hw as [Hcalls Hstatic]. split; [|split; [exact Hstatic|]].
    + exists k. split; [lia|]. replace (k + 1) with (1 + k) by lia.
      now rewrite Hcalls.
    + change (pageSize (payload w')) with (pageSize (set_pageNumber 0 (payload w'))).
      now rewrite Hstatic.
Qed.

Lemma crawler_main_requests_and_cap_witness :
  crawler_main sample_server good_disk ∅
  = crawler_main (fun p => if pageNumber p <=? 100 then sample_server p
                           else ConnectionFailed) good_disk ∅.
Proof.
  apply (crawler_main_requests_and_cap sample_server _ good_disk ∅).
  intros p Hp. cbn [set_pageNumber pageNumber].
  destruct (p <=? 100) eqn:E; [reflexivity|]. apply Z.leb_gt in E. lia.
Defined.
